(** * mcp-database-manager: the connection registry, the engine cache, the
    schema reporter, the query gate and the tool surface

    A shallow embedding of [mcp_database_manager/db_manager.py] and of
    [call_tool] in [mcp_database_manager/server.py].

    - Python [str] values are modelled as [string]; a character stands for
      the code point of the same number (0..255).  [strip] and [lower] are
      Python's on that range.
    - The [DatabaseManager] object is its engine cache [_engines]; the
      calls its code makes into SQLAlchemy are recorded, in order, in a log
      carried next to the cache.
    - SQLAlchemy itself is a [Driver]: what each call answers, given the
      calls made so far.
    - A Python exception is a value of [exn]; a method is a function from
      the state to an outcome and a new state. *)

From Stdlib Require Import ZArith String Ascii List Bool Lia DecimalString.
From stdpp Require Import base option gmap strings list fin_maps.

Local Open Scope string_scope.
Local Open Scope list_scope.
Local Open Scope Z_scope.

(** ** Python text *)

Module Py.

(** The line feed written [\n] in the source. *)
Definition nl : string := String (ascii_of_nat 10) EmptyString.

Definition code (c : ascii) : nat := nat_of_ascii c.

(** [str.isspace] on one character: the code points below 256 that Python
    counts as whitespace (tab .. carriage return, the four separators
    28..31, space, next line, no-break space). *)
Definition isspace (c : ascii) : bool :=
  let n := code c in
  ((9 <=? n) && (n <=? 13) || (28 <=? n) && (n <=? 32)
   || (n =? 133) || (n =? 160))%nat.

(** [str.lower] on one character: A..Z and the upper-case letters of
    Latin-1 (192..222 but the multiplication sign 215) move up by 32. *)
Definition lower_char (c : ascii) : ascii :=
  let n := code c in
  if ((65 <=? n) && (n <=? 90)
      || (192 <=? n) && (n <=? 222) && negb (n =? 215))%nat
  then ascii_of_nat (n + 32) else c.

Fixpoint lower (s : string) : string :=
  match s with
  | EmptyString => EmptyString
  | String c r => String (lower_char c) (lower r)
  end.

Fixpoint lstrip (s : string) : string :=
  match s with
  | EmptyString => EmptyString
  | String c r => if isspace c then lstrip r else s
  end.

Fixpoint rstrip (s : string) : string :=
  match s with
  | EmptyString => EmptyString
  | String c r =>
      match rstrip r with
      | EmptyString => if isspace c then EmptyString else String c EmptyString
      | r' => String c r'
      end
  end.

(** [s.strip()] with no argument. *)
Definition strip (s : string) : string := rstrip (lstrip s).

(** [s.startswith(p)]. *)
Fixpoint startswith (s p : string) {struct p} : bool :=
  match p, s with
  | EmptyString, _ => true
  | String _ _, EmptyString => false
  | String a p', String b s' => if ascii_dec a b then startswith s' p' else false
  end.

(** [any(f(x) for x in l)]. *)
Definition any {A : Type} (f : A -> bool) (l : list A) : bool := existsb f l.

(** [str(b)] for a [bool]. *)
Definition str_bool (b : bool) : string := if b then "True" else "False".

(** [str(n)] for an [int]. *)
Definition str_int (n : Z) : string := NilZero.string_of_int (Z.to_int n).

(** The values that travel through the tool surface and come back in
    result rows: JSON data, and [VOther] for any other object, kept as its
    [str()]. *)
#[warnings="-register-all"]
Inductive value : Type :=
  | VNone
  | VBool (b : bool)
  | VInt (n : Z)
  | VStr (s : string)
  | VList (l : list value)
  | VDict (d : list (string * value))
  | VOther (repr : string).

(** Truth value testing, as [not x] and [if x] use it. *)
Definition truthy (v : value) : bool :=
  match v with
  | VNone => false
  | VBool b => b
  | VInt n => negb (n =? 0)
  | VStr s => match s with EmptyString => false | _ => true end
  | VList l => match l with [] => false | _ => true end
  | VDict d => match d with [] => false | _ => true end
  | VOther _ => true
  end.

(** [d.get(k)] on a dict with string keys: the value, or [None]. *)
Definition get (d : gmap string value) (k : string) : value :=
  default VNone (d !! k).

(** The exceptions the code raises or meets.  [DriverError] is any
    exception coming out of SQLAlchemy; each carries its [str()]. *)
Inductive exn : Type :=
  | ValueError (msg : string)
  | RuntimeError (msg : string)
  | PermissionError (msg : string)
  | TypeError (msg : string)
  | DriverError (msg : string).

Definition str_exn (e : exn) : string :=
  match e with
  | ValueError m | RuntimeError m | PermissionError m
  | TypeError m | DriverError m => m
  end.

End Py.

Import Py.

(** ** The configuration *)

Module Config.

(** Modelled from the spec: [config.py] is not part of the sources read
    here.  A connection definition has a name (its key), a URL and a
    read-only flag; the configuration is a mapping from names to
    definitions, loaded once and not changed afterwards. *)
Record ConnectionConfig : Type := {
  name : string;
  url : string;
  readonly : bool
}.

Record ConfigManager : Type := {
  connections : gmap string ConnectionConfig
}.

(** Modelled from the spec: [ConfigManager.get_connection] answers the
    definition stored under the name, or [None]. *)
Definition get_connection (cm : ConfigManager) (connection_name : string)
  : option ConnectionConfig :=
  connections cm !! connection_name.

(** Modelled from the spec: [ConfigManager.list_connections] answers every
    configured definition. *)
Definition list_connections (cm : ConfigManager) : list ConnectionConfig :=
  (map_to_list (connections cm)).*2.

(** Modelled from the spec: [c.dict()], the fields of a definition. *)
Definition dict (c : ConnectionConfig) : value :=
  VDict [("name", VStr (name c)); ("url", VStr (url c));
         ("readonly", VBool (readonly c))].

End Config.

Import Config.

(** ** SQLAlchemy, as far as the code calls it *)

(** An [Engine] object; two engines are the same object when their numbers
    agree. *)
Definition Engine : Type := nat.

(** One entry of [inspector.get_columns(table)].  The code reads
    [col.get('default', '')], so the key may be absent, hold [None], or
    hold a value (kept as its [str()]); [col_type] is [str(col['type'])]. *)
Inductive column_default : Type :=
  | DefaultAbsent
  | DefaultNone
  | DefaultIs (repr : string).

Record Column : Type := {
  col_name : string;
  col_type : string;
  col_nullable : bool;
  col_default : column_default
}.

(** What [connection.execute] returns: the rows, each an ordered mapping
    from column name to value, and [rowcount]. *)
Record CursorResult : Type := {
  rows : list (list (string * value));
  rowcount : Z
}.

(** The calls into SQLAlchemy, in the order the code makes them.  A call
    is logged when it is made, whether it returns or raises. *)
Inductive event : Type :=
  | CreateEngine (url : string)
  | Inspect (e : Engine)
  | GetTableNames (e : Engine)
  | GetColumns (e : Engine) (table_name : string)
  | Connect (e : Engine)
  | Begin (e : Engine)
  | Execute (e : Engine) (query : string)
  | Commit (e : Engine)
  | Rollback (e : Engine)
  | Close (e : Engine).

(** The answers of SQLAlchemy and of the database behind it.  Each answer
    may depend on every call made before (the first argument), which is
    how a database with state is covered. *)
Record Driver : Type := {
  create_engine : list event -> string -> exn + Engine;
  inspect : list event -> Engine -> option exn;
  get_table_names : list event -> Engine -> exn + list string;
  get_columns : list event -> Engine -> string -> exn + list Column;
  connect : list event -> Engine -> option exn;
  begin : list event -> Engine -> option exn;
  execute : list event -> Engine -> string -> exn + CursorResult;
  commit : list event -> Engine -> option exn
}.

(** ** Methods as state transformers *)

(** The state of a [DatabaseManager]: its cache [_engines] and, next to it,
    the SQLAlchemy calls made so far. *)
Record state : Type := {
  _engines : gmap string Engine;
  calls : list event
}.

(** How a call ends: it returns, it raises, or it leaves the model (an
    argument of a type the declared input schema excludes). *)
Inductive outcome (A : Type) : Type :=
  | Return (a : A)
  | Raise (e : exn)
  | OutOfModel.

Arguments Return {A} a.
Arguments Raise {A} e.
Arguments OutOfModel {A}.

Definition M (A : Type) : Type := state -> outcome A * state.

#[global] Instance M_ret : MRet M := λ A a s, (Return a, s).

#[global] Instance M_bind : MBind M := λ A B f m s,
  match m s with
  | (Return a, s') => f a s'
  | (Raise e, s') => (Raise e, s')
  | (OutOfModel, s') => (OutOfModel, s')
  end.

(** [raise e]. *)
Definition raise {A : Type} (e : exn) : M A := λ s, (Raise e, s).

Definition out_of_model {A : Type} : M A := λ s, (OutOfModel, s).

(** [try: body / except Exception as e: handler e]. *)
Definition try_except {A : Type} (body : M A) (handler : exn -> M A) : M A :=
  λ s, match body s with
       | (Raise e, s') => handler e s'
       | r => r
       end.

Definition log_call (ev : event) (s : state) : state :=
  {| _engines := _engines s; calls := calls s ++ [ev] |}.

(** A call into SQLAlchemy that returns a value or raises. *)
Definition call {A : Type} (ev : event) (answer : list event -> exn + A) : M A :=
  λ s, match answer (calls s) with
       | inl e => (Raise e, log_call ev s)
       | inr a => (Return a, log_call ev s)
       end.

(** A call into SQLAlchemy that returns nothing or raises. *)
Definition call_ (ev : event) (answer : list event -> option exn) : M unit :=
  λ s, match answer (calls s) with
       | Some e => (Raise e, log_call ev s)
       | None => (Return tt, log_call ev s)
       end.

(** [for x in l: acc = body acc x]. *)
Fixpoint for_each {A B : Type} (l : list A) (acc : B) (body : B -> A -> M B)
  : M B :=
  match l with
  | [] => mret acc
  | x :: l' => acc' ← body acc x; for_each l' acc' body
  end.

Module DatabaseManager.
Section Methods.

Variable config_manager : ConfigManager.
Variable sqlalchemy : Driver.

(** [__init__]: an empty cache (and no call made yet). *)
Definition __init__ : state := {| _engines := ∅; calls := [] |}.

(** [self._engines[connection_name] = engine]. *)
Definition store_engine (connection_name : string) (engine : Engine) : M unit :=
  λ s, (Return tt,
        {| _engines := <[connection_name := engine]> (_engines s);
           calls := calls s |}).

Definition _get_engine (connection_name : string) : M Engine :=
  λ s,
  match _engines s !! connection_name with
  | Some engine => (Return engine, s)
  | None =>
      match get_connection config_manager connection_name with
      | None =>
          (Raise (ValueError ("Connection '" +:+ connection_name
                              +:+ "' not found in configuration.")), s)
      | Some conn_config =>
          try_except
            (engine ← call (CreateEngine (url conn_config))
                           (λ h, create_engine sqlalchemy h (url conn_config));
             store_engine connection_name engine;;
             mret engine)
            (λ e, raise (RuntimeError ("Failed to create engine for '"
                                       +:+ connection_name +:+ "': "
                                       +:+ str_exn e)))
            s
      end
  end.

(** One pass of the inner loop of [get_schema]: the row of a column. *)
Definition add_column (schema_md : string) (col : Column) : string :=
  let default_val :=
    match col_default col with
    | DefaultAbsent => EmptyString
    | DefaultNone => "NULL"
    | DefaultIs v => v
    end in
  schema_md +:+ "| " +:+ col_name col +:+ " | " +:+ col_type col +:+ " | "
            +:+ str_bool (col_nullable col) +:+ " | " +:+ default_val
            +:+ " |" +:+ nl.

(** The body of the outer loop of [get_schema], from the columns on. *)
Definition add_table (schema_md : string) (table_name : string)
    (columns : list Column) : string :=
  let schema_md := schema_md +:+ "## Table: " +:+ table_name +:+ nl +:+ nl in
  let schema_md :=
    match columns with
    | [] => schema_md
    | _ => fold_left add_column columns
             (schema_md +:+ "| Column | Type | Nullable | Default |" +:+ nl
                        +:+ "|---|---|---|---|" +:+ nl)
    end in
  schema_md +:+ nl.

Definition get_schema (connection_name : string) : M string :=
  engine ← _get_engine connection_name;
  call_ (Inspect engine) (λ h, inspect sqlalchemy h engine);;
  let schema_md := "# Schema for " +:+ connection_name +:+ nl +:+ nl in
  table_names ← call (GetTableNames engine)
                     (λ h, get_table_names sqlalchemy h engine);
  for_each table_names schema_md (λ schema_md table_name,
    columns ← call (GetColumns engine table_name)
                   (λ h, get_columns sqlalchemy h engine table_name);
    mret (add_table schema_md table_name columns)).

Definition forbidden_keywords : list string :=
  ["insert"; "update"; "delete"; "drop"; "alter"; "create"; "truncate";
   "grant"; "revoke"].

(** Leaving [with engine.connect()]: the connection is closed, whether
    the block returned or raised. *)
Definition closing {A : Type} (engine : Engine) (body : M A) : M A :=
  λ s, let '(r, s') := body s in (r, log_call (Close engine) s').

(** [with engine.connect() as connection: body]. *)
Definition with_connect {A : Type} (engine : Engine) (body : M A) : M A :=
  call_ (Connect engine) (λ h, connect sqlalchemy h engine);;
  closing engine body.

(** Leaving [with engine.begin()]: the transaction is committed when the
    block returned, rolled back when it raised, and the exception goes
    on. *)
Definition ending {A : Type} (engine : Engine) (body : M A) : M A :=
  λ s, match body s with
       | (Return a, s') =>
           (call_ (Commit engine) (λ h, commit sqlalchemy h engine);;
            mret a) s'
       | (Raise e, s') => (Raise e, log_call (Rollback engine) s')
       | (OutOfModel, s') => (OutOfModel, s')
       end.

(** [with engine.begin() as connection: body]. *)
Definition with_begin {A : Type} (engine : Engine) (body : M A) : M A :=
  call_ (Begin engine) (λ h, begin sqlalchemy h engine);;
  ending engine body.

Definition execute_read (connection_name query : string)
  : M (list (list (string * value))) :=
  let query_lower := lower (strip query) in
  if any (λ kw, startswith query_lower kw) forbidden_keywords
  then raise (ValueError
    "Write operations are not allowed in read_sql. Use write_sql instead.")
  else
    engine ← _get_engine connection_name;
    with_connect engine
      (result ← call (Execute engine query)
                     (λ h, execute sqlalchemy h engine query);
       mret (rows result)).

Definition execute_write (connection_name query : string)
  : M (list (string * value)) :=
  match get_connection config_manager connection_name with
  | None => raise (ValueError ("Connection '" +:+ connection_name
                               +:+ "' not found."))
  | Some conn_config =>
      if readonly conn_config
      then raise (PermissionError ("Connection '" +:+ connection_name
                                   +:+ "' is configured as READ-ONLY."))
      else
        engine ← _get_engine connection_name;
        with_begin engine
          (result ← call (Execute engine query)
                         (λ h, execute sqlalchemy h engine query);
           mret [("status", VStr "success");
                 ("rows_affected", VInt (rowcount result))])
  end.

(** The call [db_manager.get_schema(a1, ..., an)].  The method is
    declared [get_schema(self, connection_name)]: Python binds the
    positional arguments before the body runs and raises [TypeError]
    when their number is not the declared one. *)
Definition get_schema_call (args : list value) : M string :=
  match args with
  | [VStr connection_name] => get_schema connection_name
  | [_] => out_of_model
  | [] => raise (TypeError
      "DatabaseManager.get_schema() missing 1 required positional argument: 'connection_name'")
  | _ => raise (TypeError
      ("DatabaseManager.get_schema() takes 2 positional arguments but "
       +:+ str_int (Z.of_nat (S (length args))) +:+ " were given"))
  end.

End Methods.
End DatabaseManager.

(** ** The tool surface *)

Module Server.

(** [types.TextContent(type="text", text=...)]. *)
Record TextContent : Type := { type : string; text : string }.

(** The ["required"] lists of the input schemas in [list_tools]. *)
Definition required (name : string) : list string :=
  if String.eqb name "get_schema" then ["connection_name"]
  else if String.eqb name "read_sql" then ["connection_name"; "query"]
  else if String.eqb name "write_sql" then ["connection_name"; "query"]
  else [].

Section Tool.

Variable config_manager : ConfigManager.
Variable sqlalchemy : Driver.

(** [json.dumps(x, indent=2, default=str)] (and without [default] for the
    connection list), of Python's standard library. *)
Variable json_dumps : value -> string.

Let db_manager_get_schema := DatabaseManager.get_schema_call config_manager sqlalchemy.
Let db_manager_execute_read := DatabaseManager.execute_read config_manager sqlalchemy.
Let db_manager_execute_write := DatabaseManager.execute_write config_manager sqlalchemy.

Definition text_content (s : string) : list TextContent :=
  [{| type := "text"; text := s |}].

(** [except Exception as e: return [TextContent(text=f"Error: {str(e)}")]]. *)
Definition error_text (e : exn) : M (list TextContent) :=
  mret (text_content ("Error: " +:+ str_exn e)).

Definition call_tool (name : string) (arguments : gmap string value)
  : M (list TextContent) :=
  if String.eqb name "list_connections" then
    let connections := list_connections config_manager in
    mret (text_content (json_dumps (VList (dict <$> connections))))
  else if String.eqb name "get_schema" then
    let connection_name := get arguments "connection_name" in
    let table_names := get arguments "table_names" in
    if negb (truthy connection_name)
    then raise (ValueError "connection_name is required")
    else
      try_except
        (schema ← db_manager_get_schema [connection_name; table_names];
         mret (text_content schema))
        error_text
  else if String.eqb name "read_sql" then
    let connection_name := get arguments "connection_name" in
    let query := get arguments "query" in
    if negb (truthy connection_name) || negb (truthy query)
    then raise (ValueError "connection_name and query are required")
    else
      match connection_name, query with
      | VStr connection_name, VStr query =>
          try_except
            (results ← db_manager_execute_read connection_name query;
             mret (text_content (json_dumps (VList (VDict <$> results)))))
            error_text
      | _, _ => out_of_model
      end
  else if String.eqb name "write_sql" then
    let connection_name := get arguments "connection_name" in
    let query := get arguments "query" in
    if negb (truthy connection_name) || negb (truthy query)
    then raise (ValueError "connection_name and query are required")
    else
      match connection_name, query with
      | VStr connection_name, VStr query =>
          try_except
            (result ← db_manager_execute_write connection_name query;
             mret (text_content (json_dumps (VDict result))))
            error_text
      | _, _ => out_of_model
      end
  else raise (ValueError ("Unknown tool: " +:+ name)).

End Tool.
End Server.

(** ** Runs of a manager *)

Module Run.
Section Runs.

Variable config_manager : ConfigManager.
Variable sqlalchemy : Driver.

(** The method calls a [DatabaseManager] receives. *)
Inductive request : Type :=
  | GetEngine (connection_name : string)
  | GetSchema (connection_name : string)
  | ExecuteRead (connection_name query : string)
  | ExecuteWrite (connection_name query : string).

(** The state a call leaves behind, whatever its outcome. *)
Definition step (r : request) (s : state) : state :=
  match r with
  | GetEngine c => (DatabaseManager._get_engine config_manager sqlalchemy c s).2
  | GetSchema c => (DatabaseManager.get_schema config_manager sqlalchemy c s).2
  | ExecuteRead c q => (DatabaseManager.execute_read config_manager sqlalchemy c q s).2
  | ExecuteWrite c q => (DatabaseManager.execute_write config_manager sqlalchemy c q s).2
  end.

Definition run (rs : list request) (s : state) : state :=
  fold_left (λ s r, step r s) rs s.

(** The states a manager can be in: the fresh one, and those left by a
    call from a state it can be in. *)
Inductive reachable : state -> Prop :=
  | reachable_init : reachable DatabaseManager.__init__
  | reachable_step r s : reachable s -> reachable (step r s).

End Runs.
End Run.

(** ** A small installation to run the definitions on *)

Module Example.

Definition main : ConnectionConfig :=
  {| name := "main"; url := "sqlite:///main.db"; readonly := false |}.

Definition replica : ConnectionConfig :=
  {| name := "replica"; url := "sqlite:///replica.db"; readonly := true |}.

Definition config_manager : ConfigManager :=
  {| connections := <["main" := main]> (<["replica" := replica]> ∅) |}.

Definition int_column (n : string) : Column :=
  {| col_name := n; col_type := "INTEGER"; col_nullable := false;
     col_default := DefaultNone |}.

Definition varchar_column (n : string) : Column :=
  {| col_name := n; col_type := "VARCHAR"; col_nullable := true;
     col_default := DefaultNone |}.

(** A database with the tables [users(id, name)] and [orders(id, user_id)];
    every statement but ["BOOM"] runs and touches one row. *)
Definition sqlalchemy : Driver :=
  {| create_engine := λ h _, inr (length h);
     inspect := λ _ _, None;
     get_table_names := λ _ _, inr ["users"; "orders"];
     get_columns := λ _ _ t,
       if String.eqb t "users" then inr [int_column "id"; varchar_column "name"]
       else inr [int_column "id"; int_column "user_id"];
     connect := λ _ _, None;
     begin := λ _ _, None;
     execute := λ _ _ q,
       if String.eqb q "BOOM" then inl (DriverError "syntax error")
       else inr {| rows := [[("x", VInt 1)]]; rowcount := 1 |};
     commit := λ _ _, None |}.

(** A stand-in for [json.dumps]: the witnesses below do not look inside. *)
Definition json_dumps (v : value) : string := "<json>".

(** The same installation behind a driver that cannot create an engine on
    its first call and can from the second on. *)
Definition flaky : Driver :=
  {| create_engine := λ h _,
       match h with
       | [] => inl (DriverError "connection refused")
       | _ => inr (length h)
       end;
     inspect := inspect sqlalchemy;
     get_table_names := get_table_names sqlalchemy;
     get_columns := get_columns sqlalchemy;
     connect := connect sqlalchemy;
     begin := begin sqlalchemy;
     execute := execute sqlalchemy;
     commit := commit sqlalchemy |}.

(** The same installation when the table [orders] cannot be described. *)
Definition broken_orders : Driver :=
  {| create_engine := create_engine sqlalchemy;
     inspect := inspect sqlalchemy;
     get_table_names := λ _ _, inr ["users"; "orders"; "audit"];
     get_columns := λ _ _ t,
       if String.eqb t "orders" then inl (DriverError "no such table: orders")
       else inr [int_column "id"; varchar_column "name"];
     connect := connect sqlalchemy;
     begin := begin sqlalchemy;
     execute := execute sqlalchemy;
     commit := commit sqlalchemy |}.

(** The columns the example database answers for a table. *)
Definition columns_of (t : string) : list Column :=
  if String.eqb t "users" then [int_column "id"; varchar_column "name"]
  else [int_column "id"; int_column "user_id"].

End Example.

(** ** What the claims speak about *)

Module Spec.

(** The text starts with one of the nine keywords of the denylist. *)
Definition starts_with_mutating_keyword (t : string) : Prop :=
  ∃ kw rest : string,
    kw ∈ ["insert"; "update"; "delete"; "drop"; "alter"; "create";
          "truncate"; "grant"; "revoke"]
    ∧ t = kw +:+ rest.

(** The two messages by which the manager says a name is not configured. *)
Definition not_found (connection_name : string) (e : exn) : Prop :=
  e = ValueError ("Connection '" +:+ connection_name
                  +:+ "' not found in configuration.")
  ∨ e = ValueError ("Connection '" +:+ connection_name +:+ "' not found.").

(** The error of the read gate. *)
Definition write_not_allowed : exn :=
  ValueError "Write operations are not allowed in read_sql. Use write_sql instead.".

(** The state after the calls [evs] were made on top of [s]. *)
Definition after (s : state) (evs : list event) : state :=
  {| _engines := _engines s; calls := calls s ++ evs |}.

(** The three tools that reach the database. *)
Definition database_tool (name : string) : Prop :=
  name = "get_schema" ∨ name = "read_sql" ∨ name = "write_sql".

(** The driver calls of one transaction around one statement, complete
    or cut short where the driver refused to open it. *)
Definition one_transaction (engine : Engine) (query : string)
    (evs : list event) : Prop :=
  evs = [Begin engine]
  ∨ evs = [Begin engine; Execute engine query; Commit engine]
  ∨ evs = [Begin engine; Execute engine query; Rollback engine].

(** The error [call_tool] raises when a required argument is not there. *)
Definition validation_error (name : string) : exn :=
  if String.eqb name "get_schema"
  then ValueError "connection_name is required"
  else ValueError "connection_name and query are required".

(** The error Python raises when [get_schema], declared with one parameter
    besides [self], is called with two. *)
Definition arity_error : exn :=
  TypeError "DatabaseManager.get_schema() takes 2 positional arguments but 3 were given".

(** The report on the example database. *)
Definition example_report : string :=
  "# Schema for main" +:+ nl +:+ nl
  +:+ "## Table: users" +:+ nl +:+ nl
  +:+ "| Column | Type | Nullable | Default |" +:+ nl
  +:+ "|---|---|---|---|" +:+ nl
  +:+ "| id | INTEGER | False | NULL |" +:+ nl
  +:+ "| name | VARCHAR | True | NULL |" +:+ nl +:+ nl
  +:+ "## Table: orders" +:+ nl +:+ nl
  +:+ "| Column | Type | Nullable | Default |" +:+ nl
  +:+ "|---|---|---|---|" +:+ nl
  +:+ "| id | INTEGER | False | NULL |" +:+ nl
  +:+ "| user_id | INTEGER | False | NULL |" +:+ nl +:+ nl.

(** What a call may do to the state: the log grows, cached engines stay,
    and a new entry is for a configured name. *)
Record grows (config_manager : ConfigManager) (s s' : state) : Prop := {
  grows_calls : ∃ evs : list event, calls s' = calls s ++ evs;
  grows_kept : ∀ c engine, _engines s !! c = Some engine → _engines s' !! c = Some engine;
  grows_new : ∀ c, is_Some (_engines s' !! c) →
              is_Some (_engines s !! c) ∨ is_Some (get_connection config_manager c)
}.

(** A computation is tame when every run of it makes the state grow. *)
Definition tame (config_manager : ConfigManager) {A : Type} (m : M A) : Prop :=
  ∀ s, grows config_manager s (m s).2.

(** ** What the further properties speak about *)

(** A computation respects a relation on states when every run of it
    relates the state before to the state after. *)
Definition respects (R : state → state → Prop) {A : Type} (m : M A) : Prop :=
  ∀ s, R s (m s).2.

(** The driver calls by which a schema is inspected. *)
Definition schema_event (ev : event) : bool :=
  match ev with
  | CreateEngine _ | Inspect _ | GetTableNames _ | GetColumns _ _ => true
  | _ => false
  end.

(** The driver calls of a read. *)
Definition read_event (ev : event) : bool :=
  match ev with
  | CreateEngine _ | Connect _ | Execute _ _ | Close _ => true
  | _ => false
  end.

(** The driver calls of a write. *)
Definition write_event (ev : event) : bool :=
  match ev with
  | CreateEngine _ | Begin _ | Execute _ _ | Commit _ | Rollback _ => true
  | _ => false
  end.

(** The engine a transaction call is made on. *)
Definition transaction_event (ev : event) : option Engine :=
  match ev with
  | Begin e | Commit e | Rollback e => Some e
  | _ => None
  end.

(** The log went from that of [s] to that of [s'] by calls of the class
    [K] only. *)
Definition emits (K : event → bool) (s s' : state) : Prop :=
  ∃ evs : list event, calls s' = calls s ++ evs ∧ forallb K evs = true.

(** The engine is cached under a name that is configured writable. *)
Definition writable_engine (config_manager : ConfigManager) (s : state)
    (e : Engine) : Prop :=
  ∃ c conf, _engines s !! c = Some e
            ∧ get_connection config_manager c = Some conf
            ∧ readonly conf = false.

(** Every transaction call in the log was made on such an engine. *)
Definition transactions_on_writable (config_manager : ConfigManager)
    (s : state) : Prop :=
  ∀ ev e, ev ∈ calls s → transaction_event ev = Some e →
          writable_engine config_manager s e.

(** Every cached engine is what [create_engine] answered, at some point of
    the log, for the URL configured under its name. *)
Definition created_from_config (config_manager : ConfigManager)
    (sqlalchemy : Driver) (s : state) : Prop :=
  ∀ c e, _engines s !! c = Some e →
         ∃ conf h rest,
           get_connection config_manager c = Some conf
           ∧ create_engine sqlalchemy h (url conf) = inr e
           ∧ calls s = h ++ CreateEngine (url conf) :: rest.

(** Every character of the text is whitespace. *)
Fixpoint whitespace (s : string) : bool :=
  match s with
  | EmptyString => true
  | String c r => isspace c && whitespace r
  end.

(** No character of the text is whitespace. *)
Fixpoint solid (s : string) : bool :=
  match s with
  | EmptyString => true
  | String c r => negb (isspace c) && solid r
  end.

(** The first letters of the nine keywords. *)
Definition keyword_initials : list ascii :=
  ["i"; "u"; "d"; "a"; "c"; "t"; "g"; "r"]%char.

(** The values Python takes for false among those of [value]. *)
Definition falsy_values : list value :=
  [VNone; VBool false; VInt 0; VStr EmptyString; VList []; VDict []].

(** The report: the title, then the tables in the order given. *)
Definition report (connection_name : string) (columns : string → list Column)
    (tables : list string) : string :=
  fold_left (λ schema_md t, DatabaseManager.add_table schema_md t (columns t))
            tables ("# Schema for " +:+ connection_name +:+ nl +:+ nl).

(** The calls of a tool, and the state a sequence of them leaves. *)
Definition tool_step (config_manager : ConfigManager) (sqlalchemy : Driver)
    (json_dumps : value → string) (tool_call : string * gmap string value)
    (s : state) : state :=
  (Server.call_tool config_manager sqlalchemy json_dumps
     tool_call.1 tool_call.2 s).2.

Definition tool_run (config_manager : ConfigManager) (sqlalchemy : Driver)
    (json_dumps : value → string)
    (tool_calls : list (string * gmap string value)) (s : state) : state :=
  fold_left (λ s c, tool_step config_manager sqlalchemy json_dumps c s)
            tool_calls s.

(** The call creates an engine. *)
Definition is_create (ev : event) : bool :=
  match ev with CreateEngine _ => true | _ => false end.

(** The number of engines the driver gave out: the [CreateEngine] calls
    among [evs], made after the calls [h], that it answered with an
    engine. *)
Fixpoint created_count (sqlalchemy : Driver) (h evs : list event) : nat :=
  match evs with
  | [] => 0%nat
  | ev :: evs' =>
      (match ev with
       | CreateEngine u =>
           match create_engine sqlalchemy h u with
           | inr _ => 1%nat
           | inl _ => 0%nat
           end
       | _ => 0%nat
       end + created_count sqlalchemy (h ++ [ev]) evs')%nat
  end.

End Spec.

Import Spec.

(** ** Text *)

Lemma startswith_prefix (s p : string) :
  startswith s p = true ↔ ∃ rest, s = p +:+ rest.
Proof.
  revert s. induction p as [|a p IH]; intros s; simpl.
  - split; [intros _; by exists s | done].
  - destruct s as [|b s].
    + split; [done | intros [rest H]; discriminate H].
    + destruct (ascii_dec a b) as [->|Hne].
      * rewrite IH. split; intros [rest H]; exists rest.
        -- by rewrite H.
        -- by injection H.
      * split; [done | intros [rest H]; injection H; congruence].
Qed.

Lemma gate_denylist (t : string) :
  any (λ kw, startswith t kw) DatabaseManager.forbidden_keywords = true
  ↔ starts_with_mutating_keyword t.
Proof.
  unfold any, starts_with_mutating_keyword, DatabaseManager.forbidden_keywords.
  rewrite existsb_exists. split.
  - intros (kw & Hin & Hpre). apply startswith_prefix in Hpre as [rest ->].
    exists kw, rest. split; [by apply list_elem_of_In | done].
  - intros (kw & rest & Hin & ->). exists kw.
    split; [by apply list_elem_of_In |]. apply startswith_prefix. by exists rest.
Qed.

Lemma gate_passes (t : string) :
  any (λ kw, startswith t kw) DatabaseManager.forbidden_keywords = false
  ↔ ¬ starts_with_mutating_keyword t.
Proof. rewrite <- gate_denylist. by destruct (any _ _). Qed.

Example strip_surrounding_whitespace :
  strip (String (ascii_of_nat 9) "  SELECT 1 " +:+ nl) = "SELECT 1".
Proof. reflexivity. Qed.

Example lower_mixed_case : lower "Drop TABLE t" = "drop table t".
Proof. reflexivity. Qed.

Example startswith_keyword :
  startswith "drop table t" "drop" = true ∧ startswith "dr" "drop" = false.
Proof. split; reflexivity. Qed.

(** A comment in front of the keyword gets a statement past the check: the
    check looks at the first characters only. *)
Example comment_prefix_passes :
  any (λ kw, startswith (lower (strip "/* x */ DROP TABLE t")) kw)
      DatabaseManager.forbidden_keywords = false.
Proof. reflexivity. Qed.

(** ** Sequencing *)

Lemma bind_return {A B : Type} (m : M A) (f : A → M B) (s s' : state) (a : A) :
  m s = (Return a, s') → (m ≫= f) s = f a s'.
Proof. intros H. unfold mbind, M_bind. by rewrite H. Qed.

Lemma bind_raise {A B : Type} (m : M A) (f : A → M B) (s s' : state) (e : exn) :
  m s = (Raise e, s') → (m ≫= f) s = (Raise e, s').
Proof. intros H. unfold mbind, M_bind. by rewrite H. Qed.

Lemma bind_out_of_model {A B : Type} (m : M A) (f : A → M B) (s s' : state) :
  m s = (OutOfModel, s') → (m ≫= f) s = (OutOfModel, s').
Proof. intros H. unfold mbind, M_bind. by rewrite H. Qed.

(** ** The engine cache *)

Ltac run_M :=
  unfold mbind, M_bind, mret, M_ret, raise, try_except, call, call_,
    DatabaseManager.store_engine, log_call; simpl.

Section EngineCache.

Variable config_manager : ConfigManager.
Variable sqlalchemy : Driver.

Abbreviation _get_engine := (DatabaseManager._get_engine config_manager sqlalchemy).
Abbreviation step := (Run.step config_manager sqlalchemy).
Abbreviation run := (Run.run config_manager sqlalchemy).
Abbreviation reachable := (Run.reachable config_manager sqlalchemy).
Abbreviation grows := (Spec.grows config_manager).
Abbreviation tame := (Spec.tame config_manager).

Lemma _get_engine_cached (c : string) (s : state) (engine : Engine) :
  _engines s !! c = Some engine → _get_engine c s = (Return engine, s).
Proof. intros H. unfold DatabaseManager._get_engine. by rewrite H. Qed.

Lemma _get_engine_unknown (c : string) (s : state) :
  _engines s !! c = None → get_connection config_manager c = None →
  _get_engine c s
  = (Raise (ValueError ("Connection '" +:+ c +:+ "' not found in configuration.")), s).
Proof. intros H1 H2. unfold DatabaseManager._get_engine. by rewrite H1, H2. Qed.

Lemma _get_engine_created (c : string) (s : state) (conf : ConnectionConfig)
    (engine : Engine) :
  _engines s !! c = None → get_connection config_manager c = Some conf →
  create_engine sqlalchemy (calls s) (url conf) = inr engine →
  _get_engine c s
  = (Return engine,
     {| _engines := <[c := engine]> (_engines s);
        calls := calls s ++ [CreateEngine (url conf)] |}).
Proof.
  intros H1 H2 H3. unfold DatabaseManager._get_engine. rewrite H1, H2.
  run_M. by rewrite H3.
Qed.

Lemma _get_engine_failed (c : string) (s : state) (conf : ConnectionConfig)
    (e : exn) :
  _engines s !! c = None → get_connection config_manager c = Some conf →
  create_engine sqlalchemy (calls s) (url conf) = inl e →
  _get_engine c s
  = (Raise (RuntimeError ("Failed to create engine for '" +:+ c +:+ "': "
                          +:+ str_exn e)),
     after s [CreateEngine (url conf)]).
Proof.
  intros H1 H2 H3. unfold DatabaseManager._get_engine. rewrite H1, H2.
  run_M. by rewrite H3.
Qed.

Lemma grows_refl (s : state) : grows s s.
Proof. split; [exists []; by rewrite app_nil_r | done | by left]. Qed.

Lemma grows_trans (s1 s2 s3 : state) : grows s1 s2 → grows s2 s3 → grows s1 s3.
Proof.
  intros [[e1 H1] K1 N1] [[e2 H2] K2 N2]. split.
  - exists (e1 ++ e2). by rewrite H2, H1, app_assoc.
  - eauto.
  - intros c Hc. destruct (N2 c Hc) as [H|H]; [by apply N1 | by right].
Qed.

Lemma grows_log (ev : event) (s : state) : grows s (log_call ev s).
Proof. split; [by exists [ev] | done | by left]. Qed.

Lemma grows_get_engine (c : string) (s : state) : grows s (_get_engine c s).2.
Proof.
  destruct (_engines s !! c) as [engine|] eqn:H1.
  { rewrite (_get_engine_cached _ _ _ H1). apply grows_refl. }
  destruct (get_connection config_manager c) as [conf|] eqn:H2.
  2: { rewrite (_get_engine_unknown _ _ H1 H2). apply grows_refl. }
  destruct (create_engine sqlalchemy (calls s) (url conf)) as [e|engine] eqn:H3.
  { rewrite (_get_engine_failed _ _ _ _ H1 H2 H3). apply (grows_log _ s). }
  rewrite (_get_engine_created _ _ _ _ H1 H2 H3). split; simpl.
  - by eexists.
  - intros c' e' He'. destruct (decide (c = c')) as [->|Hne].
    + congruence.
    + by rewrite lookup_insert_ne.
  - intros c' Hc'. destruct (decide (c = c')) as [->|Hne].
    + right. rewrite H2. by eexists.
    + left. by rewrite lookup_insert_ne in Hc'.
Qed.

Lemma tame_ret {A : Type} (a : A) : tame (mret a).
Proof. intros s. apply grows_refl. Qed.

Lemma tame_raise {A : Type} (e : exn) : tame (raise (A := A) e).
Proof. intros s. apply grows_refl. Qed.

Lemma tame_out_of_model {A : Type} : tame (out_of_model (A := A)).
Proof. intros s. apply grows_refl. Qed.

Lemma tame_bind {A B : Type} (m : M A) (f : A → M B) :
  tame m → (∀ a, tame (f a)) → tame (m ≫= f).
Proof.
  intros Hm Hf s. specialize (Hm s). unfold mbind, M_bind.
  destruct (m s) as [[a|e|] s']; simpl in *; [|done..].
  eapply grows_trans; [exact Hm | apply Hf].
Qed.

Lemma tame_try_except {A : Type} (m : M A) (h : exn → M A) :
  tame m → (∀ e, tame (h e)) → tame (try_except m h).
Proof.
  intros Hm Hh s. specialize (Hm s). unfold try_except.
  destruct (m s) as [[a|e|] s']; simpl in *; [done| |done].
  eapply grows_trans; [exact Hm | apply Hh].
Qed.

Lemma tame_call {A : Type} (ev : event) (answer : list event → exn + A) :
  tame (call ev answer).
Proof. intros s. unfold call. destruct (answer _); apply grows_log. Qed.

Lemma tame_call_ (ev : event) (answer : list event → option exn) :
  tame (call_ ev answer).
Proof. intros s. unfold call_. destruct (answer _); apply grows_log. Qed.

Lemma tame_for_each {A B : Type} (l : list A) (body : B → A → M B) :
  (∀ acc x, tame (body acc x)) → ∀ acc, tame (for_each l acc body).
Proof.
  intros Hbody. induction l as [|x l IH]; intros acc; simpl.
  - apply tame_ret.
  - apply tame_bind; [apply Hbody | apply IH].
Qed.

Lemma tame_closing {A : Type} (engine : Engine) (m : M A) :
  tame m → tame (DatabaseManager.closing engine m).
Proof.
  intros Hm s. specialize (Hm s). unfold DatabaseManager.closing.
  destruct (m s) as [r s']; simpl in *.
  eapply grows_trans; [exact Hm | apply grows_log].
Qed.

Lemma tame_ending {A : Type} (engine : Engine) (m : M A) :
  tame m → tame (DatabaseManager.ending sqlalchemy engine m).
Proof.
  intros Hm s. specialize (Hm s). unfold DatabaseManager.ending.
  destruct (m s) as [[a|e|] s']; simpl in *.
  - eapply grows_trans; [exact Hm |].
    apply (tame_bind _ _ (tame_call_ _ _) (λ _, tame_ret a)).
  - eapply grows_trans; [exact Hm | apply grows_log].
  - done.
Qed.

Lemma tame_get_engine (c : string) : tame (_get_engine c).
Proof. intros s. apply grows_get_engine. Qed.

Lemma tame_get_schema (c : string) :
  tame (DatabaseManager.get_schema config_manager sqlalchemy c).
Proof.
  unfold DatabaseManager.get_schema.
  apply tame_bind; [apply tame_get_engine | intros engine].
  apply tame_bind; [apply tame_call_ | intros _].
  apply tame_bind; [apply tame_call | intros tables].
  apply tame_for_each. intros acc t.
  apply tame_bind; [apply tame_call | intros cols; apply tame_ret].
Qed.

Lemma tame_execute_read (c q : string) :
  tame (DatabaseManager.execute_read config_manager sqlalchemy c q).
Proof.
  unfold DatabaseManager.execute_read.
  destruct (any _ _); [apply tame_raise |].
  apply tame_bind; [apply tame_get_engine | intros engine].
  unfold DatabaseManager.with_connect.
  apply tame_bind; [apply tame_call_ | intros _].
  apply tame_closing.
  apply tame_bind; [apply tame_call | intros r; apply tame_ret].
Qed.

Lemma tame_execute_write (c q : string) :
  tame (DatabaseManager.execute_write config_manager sqlalchemy c q).
Proof.
  unfold DatabaseManager.execute_write.
  destruct (get_connection _ _) as [conf|]; [|apply tame_raise].
  destruct (readonly conf); [apply tame_raise |].
  apply tame_bind; [apply tame_get_engine | intros engine].
  unfold DatabaseManager.with_begin.
  apply tame_bind; [apply tame_call_ | intros _].
  apply tame_ending.
  apply tame_bind; [apply tame_call | intros r; apply tame_ret].
Qed.

Lemma grows_step (r : Run.request) (s : state) : grows s (step r s).
Proof.
  destruct r; simpl.
  - apply tame_get_engine.
  - apply tame_get_schema.
  - apply tame_execute_read.
  - apply tame_execute_write.
Qed.

Lemma grows_run (rs : list Run.request) (s : state) : grows s (run rs s).
Proof.
  revert s. induction rs as [|r rs IH]; intros s; simpl.
  - apply grows_refl.
  - eapply grows_trans; [apply grows_step | apply IH].
Qed.

(** In a state a manager can be in, every cached name is configured. *)
Lemma reachable_cached_configured (s : state) :
  reachable s →
  ∀ c, is_Some (_engines s !! c) → is_Some (get_connection config_manager c).
Proof.
  induction 1 as [|r s Hs IH]; intros c Hc.
  - simpl in Hc. rewrite lookup_empty in Hc. by destruct Hc.
  - destruct (grows_new _ _ _ (grows_step r s) c Hc) as [H|H]; [by apply IH | done].
Qed.

Lemma reachable_unknown_not_cached (s : state) (c : string) :
  reachable s → get_connection config_manager c = None → _engines s !! c = None.
Proof.
  intros Hs Hc. destruct (_engines s !! c) as [engine|] eqn:He; [|done].
  destruct (reachable_cached_configured s Hs c) as [conf Hconf]; [by eexists|].
  congruence.
Qed.

Lemma reachable_run (rs : list Run.request) (s : state) :
  reachable s → reachable (run rs s).
Proof.
  revert s. induction rs as [|r rs IH]; intros s Hs; simpl; [done|].
  apply IH. by constructor.
Qed.

End EngineCache.

(** ** The write gate *)

(** C2: on a connection whose configured read-only flag is true,
    [execute_write] raises the permission error for every query text and
    leaves the state exactly as it was: no call reaches the driver, and
    the engine cache is neither consulted for a new engine nor extended. *)
Theorem execute_write_readonly_denied (config_manager : ConfigManager)
    (sqlalchemy : Driver) (connection_name query : string)
    (conn_config : ConnectionConfig) (s : state) :
  get_connection config_manager connection_name = Some conn_config →
  readonly conn_config = true →
  DatabaseManager.execute_write config_manager sqlalchemy connection_name query s
  = (Raise (PermissionError ("Connection '" +:+ connection_name
                             +:+ "' is configured as READ-ONLY.")), s).
Proof.
  intros Hconf Hro. unfold DatabaseManager.execute_write.
  rewrite Hconf, Hro. reflexivity.
Qed.

Lemma execute_write_readonly_denied_witness :
  get_connection Example.config_manager "replica" = Some Example.replica
  ∧ readonly Example.replica = true
  ∧ DatabaseManager.execute_write Example.config_manager Example.sqlalchemy
      "replica" "DELETE FROM users" DatabaseManager.__init__
    = (Raise (PermissionError "Connection 'replica' is configured as READ-ONLY."),
       DatabaseManager.__init__).
Proof.
  split; [reflexivity | split; [reflexivity |]].
  apply (execute_write_readonly_denied _ _ "replica" _ Example.replica);
    reflexivity.
Defined.

(** ** The read gate *)

Lemma execute_read_denied (config_manager : ConfigManager) (sqlalchemy : Driver)
    (connection_name query : string) (s : state) :
  starts_with_mutating_keyword (lower (strip query)) →
  DatabaseManager.execute_read config_manager sqlalchemy connection_name query s
  = (Raise write_not_allowed, s).
Proof.
  intros H. apply gate_denylist in H. unfold DatabaseManager.execute_read.
  rewrite H. reflexivity.
Qed.

Lemma execute_read_allowed (config_manager : ConfigManager) (sqlalchemy : Driver)
    (connection_name query : string) :
  ¬ starts_with_mutating_keyword (lower (strip query)) →
  DatabaseManager.execute_read config_manager sqlalchemy connection_name query
  = (engine ← DatabaseManager._get_engine config_manager sqlalchemy connection_name;
     DatabaseManager.with_connect sqlalchemy engine
       (result ← call (Execute engine query)
                      (λ h, execute sqlalchemy h engine query);
        mret (rows result))).
Proof.
  intros H. apply gate_passes in H. unfold DatabaseManager.execute_read.
  rewrite H. reflexivity.
Qed.

(** C3: a query whose trimmed, lower-cased text starts with one of the nine
    keywords is rejected by [execute_read] with the validation error, the
    state untouched (nothing reached the driver).  For every other query
    the check raises nothing: the call goes on to the engine and, once the
    engine is there and the connection opens, the query text is handed to
    the driver as it came, and what the driver answers is the outcome. *)
Theorem execute_read_keyword_gate (config_manager : ConfigManager)
    (sqlalchemy : Driver) (connection_name query : string) (s : state) :
  (starts_with_mutating_keyword (lower (strip query)) →
   DatabaseManager.execute_read config_manager sqlalchemy connection_name query s
   = (Raise write_not_allowed, s))
  ∧ (¬ starts_with_mutating_keyword (lower (strip query)) →
     match DatabaseManager._get_engine config_manager sqlalchemy connection_name s with
     | (Return engine, s1) =>
         match connect sqlalchemy (calls s1) engine with
         | None =>
             DatabaseManager.execute_read config_manager sqlalchemy
               connection_name query s
             = (match execute sqlalchemy (calls s1 ++ [Connect engine]) engine query with
                | inl e => Raise e
                | inr result => Return (rows result)
                end,
                after s1 [Connect engine; Execute engine query; Close engine])
         | Some e =>
             DatabaseManager.execute_read config_manager sqlalchemy
               connection_name query s
             = (Raise e, after s1 [Connect engine])
         end
     | (r, s1) =>
         (DatabaseManager.execute_read config_manager sqlalchemy
            connection_name query s).2 = s1
         ∧ ∀ e, r = Raise e →
             DatabaseManager.execute_read config_manager sqlalchemy
               connection_name query s = (Raise e, s1)
     end).
Proof.
  split; [apply execute_read_denied |].
  intros H. rewrite (execute_read_allowed _ _ _ _ H).
  destruct (DatabaseManager._get_engine _ _ _ s) as [[engine|e|] s1] eqn:E.
  - rewrite (bind_return _ _ _ _ _ E).
    unfold DatabaseManager.with_connect, DatabaseManager.closing, after.
    run_M. destruct (connect sqlalchemy (calls s1) engine) as [e|]; [done|].
    simpl. destruct (execute _ _ _ _); simpl; by rewrite <- !app_assoc.
  - rewrite (bind_raise _ _ _ _ _ E). split; [done | by intros ? [= ->]].
  - rewrite (bind_out_of_model _ _ _ _ E). split; [done | by intros ? [=]].
Qed.

Lemma execute_read_keyword_gate_witness :
  (starts_with_mutating_keyword (lower (strip "  Delete FROM users "))
   ∧ DatabaseManager.execute_read Example.config_manager Example.sqlalchemy
       "main" "  Delete FROM users " DatabaseManager.__init__
     = (Raise write_not_allowed, DatabaseManager.__init__))
  ∧ (¬ starts_with_mutating_keyword (lower (strip "SELECT 1 AS x"))
     ∧ DatabaseManager.execute_read Example.config_manager Example.sqlalchemy
         "main" "SELECT 1 AS x" DatabaseManager.__init__
       = (Return [[("x", VInt 1)]],
          {| _engines := {["main" := 0%nat]};
             calls := [CreateEngine "sqlite:///main.db"; Connect 0%nat;
                       Execute 0%nat "SELECT 1 AS x"; Close 0%nat] |})).
Proof.
  assert (H : starts_with_mutating_keyword (lower (strip "  Delete FROM users "))).
  { exists "delete", " from users". split; [set_solver | reflexivity]. }
  assert (H' : ¬ starts_with_mutating_keyword (lower (strip "SELECT 1 AS x"))).
  { apply gate_passes. reflexivity. }
  split; (split; [assumption |]).
  - exact (proj1 (execute_read_keyword_gate Example.config_manager
                    Example.sqlalchemy "main" "  Delete FROM users "
                    DatabaseManager.__init__) H).
  - pose proof (proj2 (execute_read_keyword_gate Example.config_manager
                         Example.sqlalchemy "main" "SELECT 1 AS x"
                         DatabaseManager.__init__) H') as K.
    vm_compute in K. vm_compute. exact K.
Defined.

(** C10: the keyword check of [execute_read] comes before the connection
    lookup.  A denylisted query raises the validation error for every
    connection name, configured or not, cached or not; in particular for a
    name that is not configured the caller sees that error and not a
    not-found one.  The state, and with it the engine cache, stays as it
    was. *)
Theorem execute_read_gate_before_lookup (config_manager : ConfigManager)
    (sqlalchemy : Driver) (connection_name query : string) (s : state) :
  starts_with_mutating_keyword (lower (strip query)) →
  DatabaseManager.execute_read config_manager sqlalchemy connection_name query s
  = (Raise write_not_allowed, s)
  ∧ ¬ not_found connection_name write_not_allowed
  ∧ (get_connection config_manager connection_name = None →
     ∃ e s',
       DatabaseManager.execute_read config_manager sqlalchemy
         connection_name query s = (Raise e, s')
       ∧ ¬ not_found connection_name e
       ∧ _engines s' = _engines s ∧ calls s' = calls s).
Proof.
  intros H.
  assert (Hnf : ¬ not_found connection_name write_not_allowed)
    by (intros [H1|H1]; discriminate H1).
  split; [by apply execute_read_denied |]. split; [exact Hnf |].
  intros _. exists write_not_allowed, s.
  split; [by apply execute_read_denied | done].
Qed.

Lemma execute_read_gate_before_lookup_witness :
  get_connection Example.config_manager "ghost" = None
  ∧ starts_with_mutating_keyword (lower (strip "DROP TABLE users"))
  ∧ DatabaseManager.execute_read Example.config_manager Example.sqlalchemy
      "ghost" "DROP TABLE users" DatabaseManager.__init__
    = (Raise write_not_allowed, DatabaseManager.__init__).
Proof.
  assert (H : starts_with_mutating_keyword (lower (strip "DROP TABLE users"))).
  { exists "drop", " table users". split; [set_solver | reflexivity]. }
  split; [reflexivity | split; [exact H |]].
  exact (proj1 (execute_read_gate_before_lookup Example.config_manager
                  Example.sqlalchemy "ghost" "DROP TABLE users"
                  DatabaseManager.__init__ H)).
Defined.

(** ** Names that are not configured *)

(** C4, as the code has it: for a connection name that is not configured,
    in every state a manager can be in, [get_schema] and [execute_write]
    (for every query text) raise the not-found error, and so does
    [execute_read] for every query text that passes the keyword check; a
    denylisted query is stopped by the keyword check first and raises the
    validation error.  In each case the state is what it was: no engine is
    created and no call reaches the driver. *)
Theorem unknown_connection_not_found (config_manager : ConfigManager)
    (sqlalchemy : Driver) (connection_name : string) (s : state) :
  Run.reachable config_manager sqlalchemy s →
  get_connection config_manager connection_name = None →
  DatabaseManager.get_schema config_manager sqlalchemy connection_name s
  = (Raise (ValueError ("Connection '" +:+ connection_name
                        +:+ "' not found in configuration.")), s)
  ∧ (∀ query,
       DatabaseManager.execute_write config_manager sqlalchemy
         connection_name query s
       = (Raise (ValueError ("Connection '" +:+ connection_name
                             +:+ "' not found.")), s))
  ∧ (∀ query,
       ¬ starts_with_mutating_keyword (lower (strip query)) →
       DatabaseManager.execute_read config_manager sqlalchemy
         connection_name query s
       = (Raise (ValueError ("Connection '" +:+ connection_name
                             +:+ "' not found in configuration.")), s))
  ∧ (∀ query,
       starts_with_mutating_keyword (lower (strip query)) →
       DatabaseManager.execute_read config_manager sqlalchemy
         connection_name query s
       = (Raise write_not_allowed, s)).
Proof.
  intros Hs Hc.
  pose proof (reachable_unknown_not_cached _ _ _ _ Hs Hc) as Hcache.
  pose proof (_get_engine_unknown _ sqlalchemy _ _ Hcache Hc) as Hengine.
  repeat split.
  - unfold DatabaseManager.get_schema. by rewrite (bind_raise _ _ _ _ _ Hengine).
  - intros query. unfold DatabaseManager.execute_write. by rewrite Hc.
  - intros query H. rewrite (execute_read_allowed _ _ _ _ H).
    by rewrite (bind_raise _ _ _ _ _ Hengine).
  - intros query H. by apply execute_read_denied.
Qed.

Lemma unknown_connection_not_found_witness :
  Run.reachable Example.config_manager Example.sqlalchemy
    (Run.step Example.config_manager Example.sqlalchemy
       (Run.ExecuteRead "main" "SELECT 1 AS x") DatabaseManager.__init__)
  ∧ get_connection Example.config_manager "ghost" = None
  ∧ DatabaseManager.get_schema Example.config_manager Example.sqlalchemy "ghost"
      (Run.step Example.config_manager Example.sqlalchemy
         (Run.ExecuteRead "main" "SELECT 1 AS x") DatabaseManager.__init__)
    = (Raise (ValueError "Connection 'ghost' not found in configuration."),
       Run.step Example.config_manager Example.sqlalchemy
         (Run.ExecuteRead "main" "SELECT 1 AS x") DatabaseManager.__init__).
Proof.
  assert (H : Run.reachable Example.config_manager Example.sqlalchemy
                (Run.step Example.config_manager Example.sqlalchemy
                   (Run.ExecuteRead "main" "SELECT 1 AS x")
                   DatabaseManager.__init__)).
  { apply Run.reachable_step, Run.reachable_init. }
  split; [exact H | split; [reflexivity |]].
  exact (proj1 (unknown_connection_not_found Example.config_manager
                  Example.sqlalchemy "ghost" _ H eq_refl)).
Defined.

(** C4, as it is worded, fails: on the name ["ghost"], which is not
    configured, [execute_read] with a denylisted query raises the
    validation error of the keyword check, which is not a not-found
    error. *)
Lemma unknown_connection_denylisted_read_counterexample :
  get_connection Example.config_manager "ghost" = None
  ∧ ∃ e,
      DatabaseManager.execute_read Example.config_manager Example.sqlalchemy
        "ghost" "DROP TABLE users" DatabaseManager.__init__
      = (Raise e, DatabaseManager.__init__)
      ∧ ¬ not_found "ghost" e.
Proof.
  split; [reflexivity |]. exists write_not_allowed.
  split; [reflexivity |]. intros [H|H]; discriminate H.
Qed.

(** ** The cache is filled once *)

(** C7: the first access to a name that succeeds creates one engine and
    stores it under the name; from then on, after any calls whatever, the
    cache still holds that engine under the name, and an access returns it
    with the state unchanged, so that no engine is created again. *)
Theorem engine_cached_once (config_manager : ConfigManager)
    (sqlalchemy : Driver) (connection_name : string) :
  (∀ s engine s',
     _engines s !! connection_name = None →
     DatabaseManager._get_engine config_manager sqlalchemy connection_name s
     = (Return engine, s') →
     ∃ conn_config,
       get_connection config_manager connection_name = Some conn_config
       ∧ create_engine sqlalchemy (calls s) (url conn_config) = inr engine
       ∧ s' = {| _engines := <[connection_name := engine]> (_engines s);
                 calls := calls s ++ [CreateEngine (url conn_config)] |}
       ∧ _engines s' !! connection_name = Some engine)
  ∧ (∀ s engine,
       _engines s !! connection_name = Some engine →
       ∀ requests,
         let s' := Run.run config_manager sqlalchemy requests s in
         _engines s' !! connection_name = Some engine
         ∧ DatabaseManager._get_engine config_manager sqlalchemy
             connection_name s'
           = (Return engine, s')).
Proof.
  split.
  - intros s engine s' Hnone Hget.
    destruct (get_connection config_manager connection_name) as [conf|] eqn:Hc.
    2: { rewrite (_get_engine_unknown _ _ _ _ Hnone Hc) in Hget. discriminate. }
    exists conf. split; [done |].
    destruct (create_engine sqlalchemy (calls s) (url conf)) as [e|eng] eqn:Hcr.
    { rewrite (_get_engine_failed _ _ _ _ _ _ Hnone Hc Hcr) in Hget. discriminate. }
    rewrite (_get_engine_created _ _ _ _ _ _ Hnone Hc Hcr) in Hget.
    injection Hget as -> <-. repeat split. simpl. apply lookup_insert_eq.
  - intros s engine Hsome requests s'.
    assert (Hkept : _engines s' !! connection_name = Some engine).
    { apply (grows_kept _ _ _ (grows_run _ sqlalchemy requests s)), Hsome. }
    split; [exact Hkept | by apply _get_engine_cached].
Qed.

Lemma engine_cached_once_witness :
  _engines DatabaseManager.__init__ !! "main" = None
  ∧ DatabaseManager._get_engine Example.config_manager Example.sqlalchemy
      "main" DatabaseManager.__init__
    = (Return 0%nat,
       {| _engines := {["main" := 0%nat]};
          calls := [CreateEngine "sqlite:///main.db"] |})
  ∧ ∃ conn_config,
      get_connection Example.config_manager "main" = Some conn_config
      ∧ create_engine Example.sqlalchemy (calls DatabaseManager.__init__)
          (url conn_config) = inr 0%nat
      ∧ {| _engines := {["main" := 0%nat]};
           calls := [CreateEngine "sqlite:///main.db"] |}
        = {| _engines := <["main" := 0%nat]> (_engines DatabaseManager.__init__);
             calls := calls DatabaseManager.__init__
                      ++ [CreateEngine (url conn_config)] |}
      ∧ _engines {| _engines := {["main" := 0%nat]};
                    calls := [CreateEngine "sqlite:///main.db"] |} !! "main"
        = Some 0%nat.
Proof.
  split; [reflexivity | split; [reflexivity |]].
  apply (proj1 (engine_cached_once Example.config_manager Example.sqlalchemy
                  "main") DatabaseManager.__init__ 0%nat);
    reflexivity.
Defined.

(** ** The write path *)

Lemma execute_write_with_engine (config_manager : ConfigManager)
    (sqlalchemy : Driver) (connection_name query : string)
    (conn_config : ConnectionConfig) (s s1 : state) (engine : Engine) :
  get_connection config_manager connection_name = Some conn_config →
  readonly conn_config = false →
  DatabaseManager._get_engine config_manager sqlalchemy connection_name s
  = (Return engine, s1) →
  DatabaseManager.execute_write config_manager sqlalchemy connection_name query s
  = match begin sqlalchemy (calls s1) engine with
    | Some e => (Raise e, after s1 [Begin engine])
    | None =>
        match execute sqlalchemy (calls s1 ++ [Begin engine]) engine query with
        | inl e =>
            (Raise e, after s1 [Begin engine; Execute engine query; Rollback engine])
        | inr result =>
            (match commit sqlalchemy
                     (calls s1 ++ [Begin engine; Execute engine query]) engine with
             | Some e => Raise e
             | None => Return [("status", VStr "success");
                               ("rows_affected", VInt (rowcount result))]
             end,
             after s1 [Begin engine; Execute engine query; Commit engine])
        end
    end.
Proof.
  intros Hc Hro Hget. unfold DatabaseManager.execute_write.
  rewrite Hc, Hro, (bind_return _ _ _ _ _ Hget).
  unfold DatabaseManager.with_begin, DatabaseManager.ending, after.
  run_M. destruct (begin sqlalchemy (calls s1) engine) as [e|]; [done |].
  simpl. destruct (execute _ _ _ _) as [e|result]; simpl.
  - by rewrite <- !app_assoc.
  - rewrite <- !app_assoc. simpl. by destruct (commit _ _ _).
Qed.

(** C5: on a writable connection, the driver calls [execute_write] makes
    after obtaining the engine are those of one transaction, and the
    statement is never handed to the driver outside it.  Once the engine is
    there and the transaction opens: when the driver runs the statement
    (and the commit goes through) the transaction is committed and the
    result is the mapping with status "success" and the driver's row
    count; when the driver raises, the transaction is rolled back, nothing
    is committed, and the exception goes on. *)
Theorem execute_write_transaction (config_manager : ConfigManager)
    (sqlalchemy : Driver) (connection_name query : string)
    (conn_config : ConnectionConfig) (s : state) :
  get_connection config_manager connection_name = Some conn_config →
  readonly conn_config = false →
  match DatabaseManager._get_engine config_manager sqlalchemy connection_name s with
  | (Return engine, s1) =>
      (∃ evs,
         (DatabaseManager.execute_write config_manager sqlalchemy
            connection_name query s).2 = after s1 evs
         ∧ one_transaction engine query evs)
      ∧ (begin sqlalchemy (calls s1) engine = None →
         match execute sqlalchemy (calls s1 ++ [Begin engine]) engine query with
         | inr result =>
             commit sqlalchemy
               (calls s1 ++ [Begin engine; Execute engine query]) engine = None →
             DatabaseManager.execute_write config_manager sqlalchemy
               connection_name query s
             = (Return [("status", VStr "success");
                        ("rows_affected", VInt (rowcount result))],
                after s1 [Begin engine; Execute engine query; Commit engine])
         | inl e =>
             DatabaseManager.execute_write config_manager sqlalchemy
               connection_name query s
             = (Raise e,
                after s1 [Begin engine; Execute engine query; Rollback engine])
             ∧ Commit engine
               ∉ [Begin engine; Execute engine query; Rollback engine]
         end)
  | (_, s1) =>
      (DatabaseManager.execute_write config_manager sqlalchemy
         connection_name query s).2 = s1
  end.
Proof.
  intros Hc Hro.
  destruct (DatabaseManager._get_engine _ _ _ s) as [[engine|e|] s1] eqn:Hget.
  - rewrite (execute_write_with_engine _ _ _ query _ _ _ _ Hc Hro Hget).
    unfold one_transaction. split.
    + destruct (begin _ _ _); [eauto |].
      destruct (execute _ _ _ _); simpl; eauto 6.
    + intros ->. destruct (execute _ _ _ _) as [e|result].
      * split; [done |]. intros H. rewrite !elem_of_cons, elem_of_nil in H.
        destruct H as [H|[H|[H|[]]]]; discriminate H.
      * by intros ->.
  - unfold DatabaseManager.execute_write.
    by rewrite Hc, Hro, (bind_raise _ _ _ _ _ Hget).
  - unfold DatabaseManager.execute_write.
    by rewrite Hc, Hro, (bind_out_of_model _ _ _ _ Hget).
Qed.

Lemma execute_write_transaction_witness :
  (DatabaseManager.execute_write Example.config_manager Example.sqlalchemy
     "main" "UPDATE t SET a=1 WHERE id=1" DatabaseManager.__init__
   = (Return [("status", VStr "success"); ("rows_affected", VInt 1)],
      {| _engines := {["main" := 0%nat]};
         calls := [CreateEngine "sqlite:///main.db"; Begin 0%nat;
                   Execute 0%nat "UPDATE t SET a=1 WHERE id=1";
                   Commit 0%nat] |}))
  ∧ (DatabaseManager.execute_write Example.config_manager Example.sqlalchemy
       "main" "BOOM" DatabaseManager.__init__
     = (Raise (DriverError "syntax error"),
        {| _engines := {["main" := 0%nat]};
           calls := [CreateEngine "sqlite:///main.db"; Begin 0%nat;
                     Execute 0%nat "BOOM"; Rollback 0%nat] |})).
Proof.
  split.
  - pose proof (execute_write_transaction Example.config_manager
                  Example.sqlalchemy "main" "UPDATE t SET a=1 WHERE id=1"
                  Example.main DatabaseManager.__init__ eq_refl eq_refl) as K.
    vm_compute in K. destruct K as [_ K]. specialize (K eq_refl eq_refl).
    vm_compute. exact K.
  - pose proof (execute_write_transaction Example.config_manager
                  Example.sqlalchemy "main" "BOOM"
                  Example.main DatabaseManager.__init__ eq_refl eq_refl) as K.
    vm_compute in K. destruct K as [_ K]. destruct (K eq_refl) as [K' _].
    vm_compute. exact K'.
Defined.

(** ** The tool surface *)

Section ToolSurface.

Variable config_manager : ConfigManager.
Variable sqlalchemy : Driver.
Variable json_dumps : value → string.

Abbreviation call_tool := (Server.call_tool config_manager sqlalchemy json_dumps).

Lemma try_except_rendered {A : Type} (body : M A) (k : A → list Server.TextContent)
    (s s' : state) (e : exn) :
  body s = (Raise e, s') →
  try_except (a ← body; mret (k a)) Server.error_text s
  = (Return (Server.text_content ("Error: " +:+ str_exn e)), s').
Proof.
  intros H. unfold try_except. by rewrite (bind_raise _ _ _ _ _ H).
Qed.

Lemma try_except_never_raises {A : Type} (body : M A)
    (k : A → list Server.TextContent) (s s' : state) (e : exn) :
  try_except (a ← body; mret (k a)) Server.error_text s ≠ (Raise e, s').
Proof.
  unfold try_except, mbind, M_bind.
  by destruct (body s) as [[a|e'|] s1].
Qed.

Lemma get_schema_call_arity (a b : value) (s : state) :
  DatabaseManager.get_schema_call config_manager sqlalchemy [a; b] s
  = (Raise arity_error, s).
Proof. by destruct a. Qed.

Lemma call_tool_get_schema (arguments : gmap string value) :
  call_tool "get_schema" arguments
  = if negb (truthy (get arguments "connection_name"))
    then raise (ValueError "connection_name is required")
    else try_except
           (schema ← DatabaseManager.get_schema_call config_manager sqlalchemy
                       [get arguments "connection_name";
                        get arguments "table_names"];
            mret (Server.text_content schema))
           Server.error_text.
Proof. reflexivity. Qed.

Lemma call_tool_read_sql (arguments : gmap string value) :
  call_tool "read_sql" arguments
  = if negb (truthy (get arguments "connection_name"))
       || negb (truthy (get arguments "query"))
    then raise (ValueError "connection_name and query are required")
    else match get arguments "connection_name", get arguments "query" with
         | VStr connection_name, VStr query =>
             try_except
               (results ← DatabaseManager.execute_read config_manager
                            sqlalchemy connection_name query;
                mret (Server.text_content
                        (json_dumps (VList (VDict <$> results)))))
               Server.error_text
         | _, _ => out_of_model
         end.
Proof. reflexivity. Qed.

Lemma call_tool_write_sql (arguments : gmap string value) :
  call_tool "write_sql" arguments
  = if negb (truthy (get arguments "connection_name"))
       || negb (truthy (get arguments "query"))
    then raise (ValueError "connection_name and query are required")
    else match get arguments "connection_name", get arguments "query" with
         | VStr connection_name, VStr query =>
             try_except
               (result ← DatabaseManager.execute_write config_manager
                           sqlalchemy connection_name query;
                mret (Server.text_content (json_dumps (VDict result))))
               Server.error_text
         | _, _ => out_of_model
         end.
Proof. reflexivity. Qed.

Lemma get_schema_tool_arity (arguments : gmap string value) (s : state) :
  truthy (get arguments "connection_name") = true →
  call_tool "get_schema" arguments s
  = (Return (Server.text_content ("Error: " +:+ str_exn arity_error)), s).
Proof.
  intros H. rewrite call_tool_get_schema, H. cbn [negb].
  apply try_except_rendered, get_schema_call_arity.
Qed.

Lemma call_tool_falsy (name k : string) (arguments : gmap string value)
    (s : state) :
  database_tool name → k ∈ Server.required name →
  truthy (get arguments k) = false →
  call_tool name arguments s = (Raise (validation_error name), s).
Proof.
  intros [-> | [-> | ->]] Hk Hfalsy; unfold Server.required in Hk; simpl in Hk;
    rewrite !elem_of_cons, elem_of_nil in Hk.
  - rewrite call_tool_get_schema. destruct Hk as [-> | []]. by rewrite Hfalsy.
  - rewrite call_tool_read_sql.
    destruct Hk as [-> | [-> | []]]; rewrite Hfalsy; cbn [negb orb]; [done |].
    by rewrite orb_true_r.
  - rewrite call_tool_write_sql.
    destruct Hk as [-> | [-> | []]]; rewrite Hfalsy; cbn [negb orb]; [done |].
    by rewrite orb_true_r.
Qed.

End ToolSurface.

(** C1 fails on the code: the tool passes [table_names] along, but
    [DatabaseManager.get_schema] is declared with the connection name
    only.  On the example installation the call through the tool with the
    connection ["main"] and no table filter answers the text of the arity
    error and asks the driver nothing, while the method called with the
    name alone renders both tables and their four columns. *)
Theorem get_schema_tool_fails_on_arity :
  Server.call_tool Example.config_manager Example.sqlalchemy Example.json_dumps
    "get_schema" {["connection_name" := VStr "main"]} DatabaseManager.__init__
  = (Return (Server.text_content
       "Error: DatabaseManager.get_schema() takes 2 positional arguments but 3 were given"),
     DatabaseManager.__init__)
  ∧ (DatabaseManager.get_schema Example.config_manager Example.sqlalchemy
       "main" DatabaseManager.__init__).1
    = Return example_report.
Proof.
  split.
  - by apply get_schema_tool_arity.
  - reflexivity.
Qed.

(** C6: when a required argument of [get_schema], [read_sql] or
    [write_sql] is missing, [call_tool] raises the validation error (the
    call fails, it does not return an "Error: ..." text), and the state is
    what it was: no connection was looked up and nothing reached the
    driver. *)
Theorem missing_argument_raises (config_manager : ConfigManager)
    (sqlalchemy : Driver) (json_dumps : value → string)
    (name k : string) (arguments : gmap string value) (s : state) :
  database_tool name → k ∈ Server.required name → arguments !! k = None →
  Server.call_tool config_manager sqlalchemy json_dumps name arguments s
  = (Raise (validation_error name), s)
  ∧ ∀ content s',
      Server.call_tool config_manager sqlalchemy json_dumps name arguments s
      ≠ (Return content, s').
Proof.
  intros Hname Hk Hnone.
  assert (H : Server.call_tool config_manager sqlalchemy json_dumps name arguments s
              = (Raise (validation_error name), s)).
  { apply (call_tool_falsy _ _ _ _ k); [done..|]. unfold get. by rewrite Hnone. }
  split; [exact H |]. intros content s'. by rewrite H.
Qed.

Lemma missing_argument_raises_witness :
  database_tool "read_sql" ∧ "query" ∈ Server.required "read_sql"
  ∧ ({["connection_name" := VStr "main"]} : gmap string value) !! "query" = None
  ∧ Server.call_tool Example.config_manager Example.sqlalchemy Example.json_dumps
      "read_sql" {["connection_name" := VStr "main"]} DatabaseManager.__init__
    = (Raise (ValueError "connection_name and query are required"),
       DatabaseManager.__init__).
Proof.
  assert (H1 : database_tool "read_sql") by (right; left; reflexivity).
  assert (H2 : "query" ∈ Server.required "read_sql") by (simpl; set_solver).
  split; [exact H1 | split; [exact H2 | split; [reflexivity |]]].
  exact (proj1 (missing_argument_raises Example.config_manager
                  Example.sqlalchemy Example.json_dumps "read_sql" "query"
                  {["connection_name" := VStr "main"]} DatabaseManager.__init__
                  H1 H2 eq_refl)).
Defined.

(** C9: a required argument that is present but is the empty string is
    taken as missing: the call does exactly what it does without the
    argument, which is to raise the validation error with the state
    untouched. *)
Theorem empty_string_as_missing (config_manager : ConfigManager)
    (sqlalchemy : Driver) (json_dumps : value → string)
    (name k : string) (arguments : gmap string value) (s : state) :
  database_tool name → k ∈ Server.required name →
  Server.call_tool config_manager sqlalchemy json_dumps name
    (<[k := VStr EmptyString]> arguments) s
  = Server.call_tool config_manager sqlalchemy json_dumps name
      (delete k arguments) s
  ∧ Server.call_tool config_manager sqlalchemy json_dumps name
      (<[k := VStr EmptyString]> arguments) s
    = (Raise (validation_error name), s).
Proof.
  intros Hname Hk.
  rewrite (call_tool_falsy _ _ _ name k (<[k := VStr EmptyString]> arguments));
    [| done | done | unfold get; by rewrite lookup_insert_eq].
  rewrite (call_tool_falsy _ _ _ name k (delete k arguments));
    [| done | done | unfold get; by rewrite lookup_delete_eq].
  done.
Qed.

Lemma empty_string_as_missing_witness :
  database_tool "write_sql" ∧ "connection_name" ∈ Server.required "write_sql"
  ∧ Server.call_tool Example.config_manager Example.sqlalchemy Example.json_dumps
      "write_sql"
      (<["connection_name" := VStr EmptyString]> {["query" := VStr "DELETE FROM t"]})
      DatabaseManager.__init__
    = (Raise (ValueError "connection_name and query are required"),
       DatabaseManager.__init__).
Proof.
  assert (H1 : database_tool "write_sql") by (right; right; reflexivity).
  assert (H2 : "connection_name" ∈ Server.required "write_sql")
    by (simpl; set_solver).
  split; [exact H1 | split; [exact H2 |]].
  exact (proj2 (empty_string_as_missing Example.config_manager
                  Example.sqlalchemy Example.json_dumps "write_sql"
                  "connection_name" {["query" := VStr "DELETE FROM t"]}
                  DatabaseManager.__init__ H1 H2)).
Defined.

(** C8: once the required arguments are there, whatever exception the
    body of [get_schema], [read_sql] or [write_sql] raises (a name that is
    not configured, an engine that cannot be created, the keyword check,
    the read-only flag, the driver) is caught: [call_tool] returns the
    text "Error: " followed by the message of the exception, and never
    raises. *)
Theorem tool_errors_rendered (config_manager : ConfigManager)
    (sqlalchemy : Driver) (json_dumps : value → string)
    (arguments : gmap string value) (connection_name : string) (s : state) :
  arguments !! "connection_name" = Some (VStr connection_name) →
  connection_name ≠ EmptyString →
  ((∀ e s',
      DatabaseManager.get_schema_call config_manager sqlalchemy
        [VStr connection_name; get arguments "table_names"] s = (Raise e, s') →
      Server.call_tool config_manager sqlalchemy json_dumps "get_schema" arguments s
      = (Return (Server.text_content ("Error: " +:+ str_exn e)), s'))
   ∧ (∀ e s',
        Server.call_tool config_manager sqlalchemy json_dumps "get_schema"
          arguments s ≠ (Raise e, s')))
  ∧ (∀ query,
       arguments !! "query" = Some (VStr query) → query ≠ EmptyString →
       (∀ e s',
          DatabaseManager.execute_read config_manager sqlalchemy
            connection_name query s = (Raise e, s') →
          Server.call_tool config_manager sqlalchemy json_dumps "read_sql"
            arguments s
          = (Return (Server.text_content ("Error: " +:+ str_exn e)), s'))
       ∧ (∀ e s',
            DatabaseManager.execute_write config_manager sqlalchemy
              connection_name query s = (Raise e, s') →
            Server.call_tool config_manager sqlalchemy json_dumps "write_sql"
              arguments s
            = (Return (Server.text_content ("Error: " +:+ str_exn e)), s'))
       ∧ (∀ name e s',
            name = "read_sql" ∨ name = "write_sql" →
            Server.call_tool config_manager sqlalchemy json_dumps name
              arguments s ≠ (Raise e, s'))).
Proof.
  intros Hc Hne.
  assert (Hget : get arguments "connection_name" = VStr connection_name)
    by (unfold get; by rewrite Hc).
  assert (Htruthy : truthy (VStr connection_name) = true)
    by (by destruct connection_name).
  split.
  - rewrite call_tool_get_schema, Hget, Htruthy. cbn [negb]. split.
    + intros e s' H. by apply try_except_rendered.
    + intros e s'. apply try_except_never_raises.
  - intros query Hq Hqne.
    assert (Hgetq : get arguments "query" = VStr query)
      by (unfold get; by rewrite Hq).
    assert (Htruthyq : truthy (VStr query) = true) by (by destruct query).
    rewrite call_tool_read_sql, call_tool_write_sql, Hget, Hgetq,
      Htruthy, Htruthyq.
    cbn [negb orb]. repeat split.
    + intros e s' H. by apply try_except_rendered.
    + intros e s' H. by apply try_except_rendered.
    + intros name e s' [-> | ->].
      * rewrite call_tool_read_sql, Hget, Hgetq, Htruthy, Htruthyq.
        apply try_except_never_raises.
      * rewrite call_tool_write_sql, Hget, Hgetq, Htruthy, Htruthyq.
        apply try_except_never_raises.
Qed.

Lemma tool_errors_rendered_witness :
  DatabaseManager.execute_write Example.config_manager Example.sqlalchemy
    "replica" "DELETE FROM users" DatabaseManager.__init__
  = (Raise (PermissionError "Connection 'replica' is configured as READ-ONLY."),
     DatabaseManager.__init__)
  ∧ Server.call_tool Example.config_manager Example.sqlalchemy Example.json_dumps
      "write_sql"
      (<["connection_name" := VStr "replica"]> {["query" := VStr "DELETE FROM users"]})
      DatabaseManager.__init__
    = (Return (Server.text_content
                 "Error: Connection 'replica' is configured as READ-ONLY."),
       DatabaseManager.__init__).
Proof.
  split; [reflexivity |].
  assert (Hne : ∀ a r, String a r ≠ EmptyString) by (intros a r H; discriminate H).
  assert (H1 : (<["connection_name" := VStr "replica"]>
                  {["query" := VStr "DELETE FROM users"]} : gmap string value)
               !! "connection_name" = Some (VStr "replica"))
    by (vm_compute; reflexivity).
  assert (H2 : (<["connection_name" := VStr "replica"]>
                  {["query" := VStr "DELETE FROM users"]} : gmap string value)
               !! "query" = Some (VStr "DELETE FROM users"))
    by (vm_compute; reflexivity).
  apply (proj1 (proj2 (proj2 (tool_errors_rendered Example.config_manager
           Example.sqlalchemy Example.json_dumps _
           "replica" DatabaseManager.__init__ H1 (Hne _ _))
           "DELETE FROM users" H2 (Hne _ _)))
         (PermissionError "Connection 'replica' is configured as READ-ONLY.")).
  reflexivity.
Defined.

(** * Further properties of the code *)

(** ** The keyword check, seen from the text *)

Lemma isspace_lower_char (c : ascii) : isspace (lower_char c) = isspace c.
Proof. destruct c as [[] [] [] [] [] [] [] []]; reflexivity. Qed.

Lemma solid_lower (u : string) : solid (lower u) = solid u.
Proof.
  induction u as [|c u IH]; simpl; [done |].
  by rewrite isspace_lower_char, IH.
Qed.

Lemma lower_app (u v : string) : lower (u +:+ v) = lower u +:+ lower v.
Proof. induction u as [|c u IH]; simpl; [done | by rewrite IH]. Qed.

Lemma lstrip_whitespace (ws t : string) :
  whitespace ws = true → lstrip (ws +:+ t) = lstrip t.
Proof.
  induction ws as [|c ws IH]; simpl; [done |].
  intros [Hc Hws]%andb_true_iff. rewrite Hc. by apply IH.
Qed.

Lemma lstrip_solid (u t : string) :
  u ≠ EmptyString → solid u = true → lstrip (u +:+ t) = u +:+ t.
Proof.
  destruct u as [|c u]; [done |]. simpl.
  intros _ [Hc _]%andb_true_iff. by destruct (isspace c).
Qed.

Lemma rstrip_cons_solid (c : ascii) (r : string) :
  isspace c = false → rstrip (String c r) = String c (rstrip r).
Proof. intros H. simpl. rewrite H. by destruct (rstrip r). Qed.

Lemma rstrip_solid (u t : string) :
  solid u = true → rstrip (u +:+ t) = u +:+ rstrip t.
Proof.
  induction u as [|c u IH]; [done |].
  intros [Hc Hu]%andb_true_iff. apply negb_true_iff in Hc.
  change (String c u +:+ t) with (String c (u +:+ t)).
  rewrite (rstrip_cons_solid _ _ Hc), (IH Hu). reflexivity.
Qed.

Lemma keywords_solid (kw : string) :
  kw ∈ DatabaseManager.forbidden_keywords → solid kw = true ∧ kw ≠ EmptyString.
Proof.
  unfold DatabaseManager.forbidden_keywords.
  rewrite !elem_of_cons, elem_of_nil.
  intros H; repeat (destruct H as [-> | H]; [by split |]). destruct H.
Qed.

Lemma lower_empty (u : string) : lower u = EmptyString → u = EmptyString.
Proof. by destruct u. Qed.

(** X1: the check sees through leading whitespace and through letter case: a
    text made of whitespace, then a keyword of the denylist written in any
    mix of cases, then anything, is refused by [execute_read] before any
    lookup, the state untouched. *)
Theorem read_gate_ignores_case_and_leading_space (config_manager : ConfigManager)
    (sqlalchemy : Driver) (connection_name ws u rest : string) (s : state) :
  whitespace ws = true →
  lower u ∈ DatabaseManager.forbidden_keywords →
  DatabaseManager.execute_read config_manager sqlalchemy connection_name
    (ws +:+ u +:+ rest) s
  = (Raise write_not_allowed, s).
Proof.
  intros Hws Hkw. apply execute_read_denied.
  destruct (keywords_solid _ Hkw) as [Hsolid Hne].
  rewrite solid_lower in Hsolid.
  assert (Hu : u ≠ EmptyString) by (intros ->; by apply Hne).
  unfold strip. rewrite (lstrip_whitespace _ _ Hws), (lstrip_solid _ _ Hu Hsolid),
    (rstrip_solid _ _ Hsolid), lower_app.
  exists (lower u), (lower (rstrip rest)). split; [| done].
  exact Hkw.
Qed.

Lemma read_gate_ignores_case_and_leading_space_witness :
  DatabaseManager.execute_read Example.config_manager Example.sqlalchemy "main"
    ((String (ascii_of_nat 9) " " +:+ nl) +:+ "TrUnCaTe" +:+ " TABLE users;")
    DatabaseManager.__init__
  = (Raise write_not_allowed, DatabaseManager.__init__).
Proof.
  apply (read_gate_ignores_case_and_leading_space Example.config_manager
           Example.sqlalchemy "main" (String (ascii_of_nat 9) " " +:+ nl)
           "TrUnCaTe" " TABLE users;").
  - reflexivity.
  - simpl. set_solver.
Defined.

Lemma startswith_other_initial (c k : ascii) (t kw : string) :
  k ≠ c → startswith (String c t) (String k kw) = false.
Proof. intros H. simpl. by destruct (ascii_dec k c). Qed.

(** X2: the check looks at the first characters only.  A text whose trimmed,
    lower-cased form is empty, or begins with a character that is not the
    first letter of a keyword (a comment, a parenthesis, the [s] of
    [select], the [w] of [with]), passes whatever follows: [execute_read]
    goes on to the engine and hands the text to the driver. *)
Theorem read_gate_passes_other_initials (config_manager : ConfigManager)
    (sqlalchemy : Driver) (connection_name query : string) :
  (lower (strip query) = EmptyString
   ∨ ∃ c t, lower (strip query) = String c t ∧ c ∉ keyword_initials) →
  ¬ starts_with_mutating_keyword (lower (strip query))
  ∧ DatabaseManager.execute_read config_manager sqlalchemy connection_name query
    = (engine ← DatabaseManager._get_engine config_manager sqlalchemy
                  connection_name;
       DatabaseManager.with_connect sqlalchemy engine
         (result ← call (Execute engine query)
                        (λ h, execute sqlalchemy h engine query);
          mret (rows result))).
Proof.
  intros H.
  assert (Hpass : ¬ starts_with_mutating_keyword (lower (strip query))).
  { apply gate_passes. destruct H as [-> | (c & t & -> & Hc)]; [reflexivity |].
    unfold keyword_initials in Hc. rewrite !not_elem_of_cons in Hc.
    destruct Hc as (H1 & H2 & H3 & H4 & H5 & H6 & H7 & H8 & _).
    unfold any, DatabaseManager.forbidden_keywords. cbn [existsb].
    rewrite !startswith_other_initial by congruence. reflexivity. }
  split; [exact Hpass | by apply execute_read_allowed].
Qed.

Lemma read_gate_passes_other_initials_witness :
  ¬ starts_with_mutating_keyword
      (lower (strip "WITH gone AS (DELETE FROM users RETURNING *) SELECT * FROM gone"))
  ∧ (DatabaseManager.execute_read Example.config_manager Example.sqlalchemy "main"
       "WITH gone AS (DELETE FROM users RETURNING *) SELECT * FROM gone"
       DatabaseManager.__init__).2
    = {| _engines := {["main" := 0%nat]};
         calls := [CreateEngine "sqlite:///main.db"; Connect 0%nat;
                   Execute 0%nat
                     "WITH gone AS (DELETE FROM users RETURNING *) SELECT * FROM gone";
                   Close 0%nat] |}.
Proof.
  destruct (read_gate_passes_other_initials Example.config_manager
              Example.sqlalchemy "main"
              "WITH gone AS (DELETE FROM users RETURNING *) SELECT * FROM gone")
    as [H1 H2].
  - right. eexists _, _. split; [reflexivity |].
    unfold keyword_initials. rewrite !not_elem_of_cons.
    repeat split; try discriminate. apply not_elem_of_nil.
  - split; [exact H1 |]. rewrite H2. vm_compute. reflexivity.
Defined.

(** ** Relations every method respects *)

Section Respects.

Variable config_manager : ConfigManager.
Variable sqlalchemy : Driver.
Variable R : state → state → Prop.
Hypothesis R_refl : ∀ s, R s s.
Hypothesis R_trans : ∀ s1 s2 s3, R s1 s2 → R s2 s3 → R s1 s3.

Lemma respects_ret {A : Type} (a : A) : respects R (mret a).
Proof. intros s. apply R_refl. Qed.

Lemma respects_raise {A : Type} (e : exn) : respects R (raise (A := A) e).
Proof. intros s. apply R_refl. Qed.

Lemma respects_bind {A B : Type} (m : M A) (f : A → M B) :
  respects R m → (∀ a, respects R (f a)) → respects R (m ≫= f).
Proof.
  intros Hm Hf s. specialize (Hm s). unfold mbind, M_bind.
  destruct (m s) as [[a|e|] s']; simpl in *; [| done..].
  eapply R_trans; [exact Hm | apply Hf].
Qed.

Lemma respects_try_except {A : Type} (m : M A) (h : exn → M A) :
  respects R m → (∀ e, respects R (h e)) → respects R (try_except m h).
Proof.
  intros Hm Hh s. specialize (Hm s). unfold try_except.
  destruct (m s) as [[a|e|] s']; simpl in *; [done | | done].
  eapply R_trans; [exact Hm | apply Hh].
Qed.

Lemma respects_call {A : Type} (ev : event) (answer : list event → exn + A) :
  (∀ s, R s (log_call ev s)) → respects R (call ev answer).
Proof. intros H s. unfold call. destruct (answer _); apply H. Qed.

Lemma respects_call_ (ev : event) (answer : list event → option exn) :
  (∀ s, R s (log_call ev s)) → respects R (call_ ev answer).
Proof. intros H s. unfold call_. destruct (answer _); apply H. Qed.

Lemma respects_for_each {A B : Type} (l : list A) (body : B → A → M B) :
  (∀ acc x, respects R (body acc x)) → ∀ acc, respects R (for_each l acc body).
Proof.
  intros Hbody. induction l as [|x l IH]; intros acc; simpl.
  - apply respects_ret.
  - apply respects_bind; [apply Hbody | apply IH].
Qed.

Lemma respects_closing {A : Type} (engine : Engine) (m : M A) :
  (∀ s, R s (log_call (Close engine) s)) →
  respects R m → respects R (DatabaseManager.closing engine m).
Proof.
  intros Hlog Hm s. specialize (Hm s). unfold DatabaseManager.closing.
  destruct (m s) as [r s']; simpl in *.
  eapply R_trans; [exact Hm | apply Hlog].
Qed.

Lemma respects_ending {A : Type} (engine : Engine) (m : M A) :
  (∀ s, R s (log_call (Commit engine) s)) →
  (∀ s, R s (log_call (Rollback engine) s)) →
  respects R m → respects R (DatabaseManager.ending sqlalchemy engine m).
Proof.
  intros Hcommit Hrollback Hm s. specialize (Hm s).
  unfold DatabaseManager.ending.
  destruct (m s) as [[a|e|] s']; simpl in *.
  - eapply R_trans; [exact Hm |].
    apply (respects_bind _ _ (respects_call_ _ _ Hcommit) (λ _, respects_ret a)).
  - eapply R_trans; [exact Hm | apply Hrollback].
  - exact Hm.
Qed.

Lemma respects_get_schema (c : string) :
  respects R (DatabaseManager._get_engine config_manager sqlalchemy c) →
  (∀ ev s, schema_event ev = true → is_create ev = false → R s (log_call ev s)) →
  respects R (DatabaseManager.get_schema config_manager sqlalchemy c).
Proof.
  intros Hengine Hlog. unfold DatabaseManager.get_schema.
  apply respects_bind; [exact Hengine | intros engine].
  apply respects_bind; [apply respects_call_; intros s; by apply Hlog | intros _].
  apply respects_bind; [apply respects_call; intros s; by apply Hlog |].
  intros tables. apply respects_for_each. intros acc t.
  apply respects_bind; [apply respects_call; intros s; by apply Hlog |].
  intros cols. apply respects_ret.
Qed.

Lemma respects_execute_read (c q : string) :
  respects R (DatabaseManager._get_engine config_manager sqlalchemy c) →
  (∀ ev s, read_event ev = true → is_create ev = false → R s (log_call ev s)) →
  respects R (DatabaseManager.execute_read config_manager sqlalchemy c q).
Proof.
  intros Hengine Hlog. unfold DatabaseManager.execute_read.
  destruct (any _ _); [apply respects_raise |].
  apply respects_bind; [exact Hengine | intros engine].
  unfold DatabaseManager.with_connect.
  apply respects_bind; [apply respects_call_; intros s; by apply Hlog | intros _].
  apply respects_closing; [intros s; by apply Hlog |].
  apply respects_bind; [apply respects_call; intros s; by apply Hlog |].
  intros result. apply respects_ret.
Qed.

Lemma respects_execute_write (c q : string) :
  respects R (DatabaseManager._get_engine config_manager sqlalchemy c) →
  (∀ ev s, write_event ev = true → is_create ev = false → R s (log_call ev s)) →
  respects R (DatabaseManager.execute_write config_manager sqlalchemy c q).
Proof.
  intros Hengine Hlog. unfold DatabaseManager.execute_write.
  destruct (get_connection _ _) as [conf|]; [| apply respects_raise].
  destruct (readonly conf); [apply respects_raise |].
  apply respects_bind; [exact Hengine | intros engine].
  unfold DatabaseManager.with_begin.
  apply respects_bind; [apply respects_call_; intros s; by apply Hlog | intros _].
  apply respects_ending; [intros s; by apply Hlog .. |].
  apply respects_bind; [apply respects_call; intros s; by apply Hlog |].
  intros result. apply respects_ret.
Qed.

End Respects.

(** ** The calls a method makes *)

Lemma emits_refl (K : event → bool) (s : state) : emits K s s.
Proof. exists []. by rewrite app_nil_r. Qed.

Lemma emits_trans (K : event → bool) (s1 s2 s3 : state) :
  emits K s1 s2 → emits K s2 s3 → emits K s1 s3.
Proof.
  intros (e1 & H1 & K1) (e2 & H2 & K2). exists (e1 ++ e2).
  split; [by rewrite H2, H1, app_assoc |].
  by rewrite forallb_app, K1, K2.
Qed.

Lemma emits_log (K : event → bool) (ev : event) (s : state) :
  K ev = true → emits K s (log_call ev s).
Proof. intros H. exists [ev]. split; [done |]. simpl. by rewrite H. Qed.

Lemma emits_get_engine (config_manager : ConfigManager) (sqlalchemy : Driver)
    (K : event → bool) (c : string) :
  (∀ u, K (CreateEngine u) = true) →
  respects (emits K) (DatabaseManager._get_engine config_manager sqlalchemy c).
Proof.
  intros HK s.
  destruct (_engines s !! c) as [engine|] eqn:H1.
  { rewrite (_get_engine_cached _ _ _ _ _ H1). apply emits_refl. }
  destruct (get_connection config_manager c) as [conf|] eqn:H2.
  2: { rewrite (_get_engine_unknown _ _ _ _ H1 H2). apply emits_refl. }
  destruct (create_engine sqlalchemy (calls s) (url conf)) as [e|engine] eqn:H3.
  - rewrite (_get_engine_failed _ _ _ _ _ _ H1 H2 H3). by apply (emits_log K _ s).
  - rewrite (_get_engine_created _ _ _ _ _ _ H1 H2 H3).
    exists [CreateEngine (url conf)]. split; [done |]. simpl. by rewrite HK.
Qed.

Lemma emits_elem (K : event → bool) (s s' : state) :
  emits K s s' →
  ∃ evs, calls s' = calls s ++ evs ∧ ∀ ev, ev ∈ evs → K ev = true.
Proof.
  intros (evs & H & HK). exists evs. split; [done |].
  intros ev Hev. rewrite forallb_forall in HK. by apply HK, list_elem_of_In.
Qed.

(** X3: inspecting a schema never runs a statement: whatever the driver
    answers, the calls [get_schema] makes are to create the engine, to
    inspect it, to list the tables and to describe a table; it opens no
    connection and no transaction and executes nothing. *)
Theorem get_schema_only_inspects (config_manager : ConfigManager)
    (sqlalchemy : Driver) (connection_name : string) (s : state) :
  ∃ evs,
    calls (DatabaseManager.get_schema config_manager sqlalchemy
             connection_name s).2 = calls s ++ evs
    ∧ (∀ ev, ev ∈ evs → schema_event ev = true)
    ∧ ∀ e q, (Execute e q ∉ evs) ∧ (Connect e ∉ evs) ∧ (Begin e ∉ evs)
             ∧ (Commit e ∉ evs).
Proof.
  destruct (emits_elem _ _ _
    (respects_get_schema config_manager sqlalchemy (emits schema_event)
       (emits_refl _) (emits_trans _) connection_name
       (emits_get_engine _ _ _ _ (λ _, eq_refl))
       (λ ev s' H _, emits_log _ ev s' H) s)) as (evs & Hcalls & HK).
  exists evs. split; [exact Hcalls |]. split; [exact HK |].
  intros e q. repeat split; intros H; by apply HK in H.
Qed.

(** X4: a read never opens, commits or rolls back a transaction and never
    inspects the schema: whatever the query and whatever the driver
    answers, the calls [execute_read] makes are to create the engine, to
    open a connection, to execute and to close. *)
Theorem execute_read_never_commits (config_manager : ConfigManager)
    (sqlalchemy : Driver) (connection_name query : string) (s : state) :
  ∃ evs,
    calls (DatabaseManager.execute_read config_manager sqlalchemy
             connection_name query s).2 = calls s ++ evs
    ∧ (∀ ev, ev ∈ evs → read_event ev = true)
    ∧ ∀ e, (Begin e ∉ evs) ∧ (Commit e ∉ evs) ∧ (Rollback e ∉ evs).
Proof.
  destruct (emits_elem _ _ _
    (respects_execute_read config_manager sqlalchemy (emits read_event)
       (emits_refl _) (emits_trans _) connection_name query
       (emits_get_engine _ _ _ _ (λ _, eq_refl))
       (λ ev s' H _, emits_log _ ev s' H) s)) as (evs & Hcalls & HK).
  exists evs. split; [exact Hcalls |]. split; [exact HK |].
  intros e. repeat split; intros H; by apply HK in H.
Qed.

(** ** Invariants of the cache and of the log *)

Section Invariants.

Variable config_manager : ConfigManager.
Variable sqlalchemy : Driver.

Abbreviation _get_engine := (DatabaseManager._get_engine config_manager sqlalchemy).
Abbreviation created := (created_from_config config_manager sqlalchemy).
Abbreviation on_writable := (transactions_on_writable config_manager).

Lemma _get_engine_returns_cached (c : string) (s s1 : state) (engine : Engine) :
  _get_engine c s = (Return engine, s1) → _engines s1 !! c = Some engine.
Proof.
  intros H. destruct (_engines s !! c) as [e|] eqn:H1.
  { rewrite (_get_engine_cached _ _ _ _ _ H1) in H. by injection H as <- <-. }
  destruct (get_connection config_manager c) as [conf|] eqn:H2.
  2: { by rewrite (_get_engine_unknown _ _ _ _ H1 H2) in H. }
  destruct (create_engine sqlalchemy (calls s) (url conf)) as [e|e] eqn:H3.
  { by rewrite (_get_engine_failed _ _ _ _ _ _ H1 H2 H3) in H. }
  rewrite (_get_engine_created _ _ _ _ _ _ H1 H2 H3) in H.
  injection H as <- <-. simpl. apply lookup_insert_eq.
Qed.

Lemma created_log (ev : event) (s : state) : created s → created (log_call ev s).
Proof.
  intros H c e Hc. destruct (H c e Hc) as (conf & h & rest & H1 & H2 & H3).
  exists conf, h, (rest ++ [ev]). repeat split; [done.. |].
  simpl. by rewrite H3, <- app_assoc.
Qed.

Lemma created_get_engine (c : string) (s : state) :
  created s → created (_get_engine c s).2.
Proof.
  intros H. destruct (_engines s !! c) as [engine|] eqn:H1.
  { by rewrite (_get_engine_cached _ _ _ _ _ H1). }
  destruct (get_connection config_manager c) as [conf|] eqn:H2.
  2: { by rewrite (_get_engine_unknown _ _ _ _ H1 H2). }
  destruct (create_engine sqlalchemy (calls s) (url conf)) as [e|engine] eqn:H3.
  { rewrite (_get_engine_failed _ _ _ _ _ _ H1 H2 H3). by apply (created_log _ s). }
  rewrite (_get_engine_created _ _ _ _ _ _ H1 H2 H3). simpl.
  intros c' e' Hc'. simpl in Hc'. destruct (decide (c = c')) as [<- | Hne].
  - rewrite lookup_insert_eq in Hc'. injection Hc' as <-.
    exists conf, (calls s), []. by repeat split.
  - rewrite lookup_insert_ne in Hc' by done.
    destruct (H c' e' Hc') as (conf' & h & rest & K1 & K2 & K3).
    exists conf', h, (rest ++ [CreateEngine (url conf)]).
    repeat split; [done.. |]. simpl. by rewrite K3, <- app_assoc.
Qed.

Lemma created_step (r : Run.request) (s : state) :
  created s → created (Run.step config_manager sqlalchemy r s).
Proof.
  set (R := λ s s' : state, created s → created s').
  assert (Hrefl : ∀ s, R s s) by (intros ? ?; done).
  assert (Htrans : ∀ s1 s2 s3, R s1 s2 → R s2 s3 → R s1 s3)
    by (intros ??? H1 H2 ?; by apply H2, H1).
  assert (Hengine : ∀ c, respects R (_get_engine c))
    by (intros c s'; unfold R; apply created_get_engine).
  assert (Hlog : ∀ ev s, R s (log_call ev s))
    by (intros ev s'; unfold R; apply created_log).
  destruct r as [c | c | c q | c q]; simpl.
  - apply Hengine.
  - by apply (respects_get_schema _ _ R Hrefl Htrans c (Hengine c)).
  - by apply (respects_execute_read _ _ R Hrefl Htrans c q (Hengine c)).
  - by apply (respects_execute_write _ _ R Hrefl Htrans c q (Hengine c)).
Qed.

Lemma no_transaction_event (K : event → bool) :
  (K = schema_event ∨ K = read_event) →
  ∀ ev, K ev = true → transaction_event ev = None.
Proof. intros [-> | ->] ev; by destruct ev. Qed.

Lemma on_writable_grows (s s' : state) :
  on_writable s → grows config_manager s s' →
  (∀ ev, ev ∈ calls s' → ev ∈ calls s ∨ transaction_event ev = None) →
  on_writable s'.
Proof.
  intros H Hgrows Hnew ev e Hev Hte.
  destruct (Hnew ev Hev) as [Hold | Hnone]; [| congruence].
  destruct (H ev e Hold Hte) as (c & conf & H1 & H2 & H3).
  exists c, conf. split; [| done]. by apply (grows_kept _ _ _ Hgrows).
Qed.

Lemma on_writable_emits (K : event → bool) (s s' : state) :
  (K = schema_event ∨ K = read_event) →
  on_writable s → grows config_manager s s' → emits K s s' → on_writable s'.
Proof.
  intros HK H Hgrows Hemits. apply (on_writable_grows s s' H Hgrows).
  destruct (emits_elem _ _ _ Hemits) as (evs & Hcalls & Hevs).
  intros ev Hev. rewrite Hcalls, elem_of_app in Hev.
  destruct Hev as [Hev | Hev]; [by left | right].
  by apply (no_transaction_event K HK), Hevs.
Qed.

Lemma on_writable_get_engine (c : string) (s : state) :
  on_writable s → on_writable (_get_engine c s).2.
Proof.
  intros H. apply (on_writable_emits schema_event s); [by left | done | |].
  - apply grows_get_engine.
  - by apply emits_get_engine.
Qed.

Lemma on_writable_step (r : Run.request) (s : state) :
  on_writable s → on_writable (Run.step config_manager sqlalchemy r s).
Proof.
  intros H. destruct r as [c | c | c q | c q]; simpl.
  - by apply on_writable_get_engine.
  - apply (on_writable_emits schema_event s); [by left | done | |].
    + apply tame_get_schema.
    + apply (respects_get_schema _ _ _ (emits_refl _) (emits_trans _));
        [by apply emits_get_engine | intros ev s' ? _; by apply emits_log].
  - apply (on_writable_emits read_event s); [by right | done | |].
    + apply tame_execute_read.
    + apply (respects_execute_read _ _ _ (emits_refl _) (emits_trans _));
        [by apply emits_get_engine | intros ev s' ? _; by apply emits_log].
  - destruct (get_connection config_manager c) as [conf|] eqn:Hc.
    2: { unfold DatabaseManager.execute_write. by rewrite Hc. }
    destruct (readonly conf) eqn:Hro.
    { unfold DatabaseManager.execute_write. by rewrite Hc, Hro. }
    pose proof (on_writable_get_engine c s H) as H1.
    destruct (_get_engine c s) as [[engine|e|] s1] eqn:Hget; simpl in H1.
    2: { unfold DatabaseManager.execute_write.
         by rewrite Hc, Hro, (bind_raise _ _ _ _ _ Hget). }
    2: { unfold DatabaseManager.execute_write.
         by rewrite Hc, Hro, (bind_out_of_model _ _ _ _ Hget). }
    pose proof (_get_engine_returns_cached _ _ _ _ Hget) as Hcached.
    rewrite (execute_write_with_engine _ _ _ q _ _ _ _ Hc Hro Hget).
    assert (Hafter : ∀ evs,
              (∀ ev e, ev ∈ evs → transaction_event ev = Some e → e = engine) →
              on_writable (after s1 evs)).
    { intros evs Hevs ev e Hev Hte. simpl in Hev. rewrite elem_of_app in Hev.
      destruct Hev as [Hev | Hev].
      - destruct (H1 ev e Hev Hte) as (c' & conf' & K1 & K2 & K3).
        by exists c', conf'.
      - rewrite (Hevs ev e Hev Hte). by exists c, conf. }
    destruct (begin _ _ _); [| destruct (execute _ _ _ _)]; simpl;
      apply Hafter; intros ev e' Hev Hte;
      rewrite ?elem_of_cons, elem_of_nil in Hev;
      repeat (destruct Hev as [-> | Hev]; [simpl in Hte; congruence |]);
      done.
Qed.

End Invariants.

(** X5: in every state a manager can be in, each engine in the cache sits
    under a configured name and is the engine [create_engine] answered,
    at a point of the log where the call is recorded, for the URL
    configured under that name. *)
Theorem cached_engines_created_from_config (config_manager : ConfigManager)
    (sqlalchemy : Driver) (s : state) :
  Run.reachable config_manager sqlalchemy s →
  ∀ c e, _engines s !! c = Some e →
    ∃ conf h rest,
      get_connection config_manager c = Some conf
      ∧ create_engine sqlalchemy h (url conf) = inr e
      ∧ calls s = h ++ CreateEngine (url conf) :: rest.
Proof.
  induction 1 as [| r s Hs IH].
  - intros c e H. simpl in H. by rewrite lookup_empty in H.
  - by apply created_step.
Qed.

Lemma cached_engines_created_from_config_witness :
  ∃ conf h rest,
    get_connection Example.config_manager "main" = Some conf
    ∧ create_engine Example.sqlalchemy h (url conf) = inr 0%nat
    ∧ calls (Run.step Example.config_manager Example.sqlalchemy
               (Run.ExecuteRead "main" "SELECT 1 AS x") DatabaseManager.__init__)
      = h ++ CreateEngine (url conf) :: rest.
Proof.
  apply (cached_engines_created_from_config Example.config_manager
           Example.sqlalchemy _
           (Run.reachable_step _ _ (Run.ExecuteRead "main" "SELECT 1 AS x") _
              (Run.reachable_init _ _)) "main" 0%nat).
  vm_compute. reflexivity.
Defined.

(** X6: over any run of a manager, a transaction is opened, committed or
    rolled back only on the engine of a connection configured writable:
    for every [Begin], [Commit] or [Rollback] in the log there is a name,
    configured with [readonly] false, under which its engine is cached. *)
Theorem transactions_only_on_writable (config_manager : ConfigManager)
    (sqlalchemy : Driver) (s : state) :
  Run.reachable config_manager sqlalchemy s →
  ∀ ev e, ev ∈ calls s → (ev = Begin e ∨ ev = Commit e ∨ ev = Rollback e) →
    ∃ c conf, _engines s !! c = Some e
              ∧ get_connection config_manager c = Some conf
              ∧ readonly conf = false.
Proof.
  intros Hs.
  assert (H : transactions_on_writable config_manager s).
  { induction Hs as [| r s Hs IH].
    - intros ev e Hev. simpl in Hev. by apply elem_of_nil in Hev.
    - by apply on_writable_step. }
  intros ev e Hev Hkind. apply (H ev e Hev).
  by destruct Hkind as [-> | [-> | ->]].
Qed.

Lemma transactions_only_on_writable_witness :
  ∃ c conf,
    _engines (Run.run Example.config_manager Example.sqlalchemy
                [Run.ExecuteWrite "replica" "DELETE FROM users";
                 Run.ExecuteWrite "main" "DELETE FROM users"]
                DatabaseManager.__init__) !! c = Some 0%nat
    ∧ get_connection Example.config_manager c = Some conf
    ∧ readonly conf = false.
Proof.
  apply (transactions_only_on_writable Example.config_manager Example.sqlalchemy
           _ (reachable_run _ _ _ _ (Run.reachable_init _ _))
           (Commit 0%nat) 0%nat).
  - vm_compute. set_solver.
  - right. left. reflexivity.
Defined.

(** ** The schema report *)

Lemma after_nil (s : state) : after s [] = s.
Proof. destruct s. unfold after. simpl. by rewrite app_nil_r. Qed.

Lemma after_after (s : state) (evs evs' : list event) :
  after (after s evs) evs' = after s (evs ++ evs').
Proof. unfold after. simpl. by rewrite app_assoc. Qed.

Lemma log_call_after (ev : event) (s : state) : log_call ev s = after s [ev].
Proof. reflexivity. Qed.

Section SchemaReport.

Variable config_manager : ConfigManager.
Variable sqlalchemy : Driver.
Variable engine : Engine.

Abbreviation describe := (λ (schema_md : string) (table_name : string),
  columns ← call (GetColumns engine table_name)
                 (λ h, get_columns sqlalchemy h engine table_name);
  mret (DatabaseManager.add_table schema_md table_name columns)).

Lemma describe_tables (columns : string → list Column) (tables : list string) :
  (∀ h t, t ∈ tables → get_columns sqlalchemy h engine t = inr (columns t)) →
  ∀ schema_md s,
    for_each tables schema_md describe s
    = (Return (fold_left (λ md t, DatabaseManager.add_table md t (columns t))
                         tables schema_md),
       after s (GetColumns engine <$> tables)).
Proof.
  induction tables as [|t tables IH]; intros Hcols schema_md s; simpl.
  - by rewrite after_nil.
  - unfold mbind at 1, M_bind at 1. run_M.
    rewrite (Hcols (calls s) t) by apply list_elem_of_here.
    rewrite IH by (intros h t' Ht'; apply Hcols; by apply list_elem_of_further).
    unfold after. simpl. by rewrite <- app_assoc.
Qed.

Lemma describe_tables_fails (columns : string → list Column)
    (pre : list string) (t : string) (post : list string) (err : exn) :
  (∀ h t', t' ∈ pre → get_columns sqlalchemy h engine t' = inr (columns t')) →
  ∀ schema_md s,
    get_columns sqlalchemy (calls s ++ (GetColumns engine <$> pre)) engine t
    = inl err →
    for_each (pre ++ t :: post) schema_md describe s
    = (Raise err, after s (GetColumns engine <$> pre ++ [t])).
Proof.
  induction pre as [|p pre IH]; intros Hcols schema_md s Herr; simpl in *.
  - rewrite app_nil_r in Herr. unfold mbind at 1, M_bind at 1. run_M.
    by rewrite Herr.
  - unfold mbind at 1, M_bind at 1. run_M.
    rewrite (Hcols (calls s) p) by apply list_elem_of_here.
    rewrite IH.
    + unfold after. simpl. by rewrite <- app_assoc.
    + intros h t' Ht'. apply Hcols. by apply list_elem_of_further.
    + simpl. by rewrite <- app_assoc.
Qed.

End SchemaReport.

(** X7: when the engine is there and the driver answers, [get_schema] returns
    the title and then one section per table, in the order the driver
    lists them, and asks the driver once for the tables and once per table
    for its columns, in that order.  Nothing is cut: every table and every
    column the driver gives is in the text. *)
Theorem get_schema_report (config_manager : ConfigManager) (sqlalchemy : Driver)
    (connection_name : string) (s s1 : state) (engine : Engine)
    (tables : list string) (columns : string → list Column) :
  DatabaseManager._get_engine config_manager sqlalchemy connection_name s
  = (Return engine, s1) →
  inspect sqlalchemy (calls s1) engine = None →
  get_table_names sqlalchemy (calls s1 ++ [Inspect engine]) engine = inr tables →
  (∀ h t, t ∈ tables → get_columns sqlalchemy h engine t = inr (columns t)) →
  DatabaseManager.get_schema config_manager sqlalchemy connection_name s
  = (Return (report connection_name columns tables),
     after s1 (Inspect engine :: GetTableNames engine
               :: (GetColumns engine <$> tables))).
Proof.
  intros Hget Hinspect Htables Hcols. unfold DatabaseManager.get_schema.
  rewrite (bind_return _ _ _ _ _ Hget).
  unfold mbind at 1, M_bind at 1. unfold call_ at 1. rewrite Hinspect.
  unfold mbind at 1, M_bind at 1. unfold call at 1. simpl calls.
  rewrite Htables.
  rewrite (describe_tables sqlalchemy engine columns tables Hcols).
  unfold report, after. simpl. by rewrite <- !app_assoc.
Qed.

Lemma get_schema_report_witness :
  DatabaseManager.get_schema Example.config_manager Example.sqlalchemy "main"
    DatabaseManager.__init__
  = (Return (report "main" Example.columns_of ["users"; "orders"]),
     {| _engines := {["main" := 0%nat]};
        calls := [CreateEngine "sqlite:///main.db"; Inspect 0%nat;
                  GetTableNames 0%nat; GetColumns 0%nat "users";
                  GetColumns 0%nat "orders"] |}).
Proof.
  pose proof (get_schema_report Example.config_manager Example.sqlalchemy "main"
                DatabaseManager.__init__ _ 0%nat ["users"; "orders"]
                Example.columns_of eq_refl eq_refl eq_refl) as H.
  rewrite H; [vm_compute; reflexivity |].
  intros h t Ht. rewrite !elem_of_cons, elem_of_nil in Ht.
  destruct Ht as [-> | [-> | []]]; reflexivity.
Defined.

(** X8: when the driver cannot describe a table, [get_schema] raises the
    driver's exception and returns no partial report; the tables listed
    after the failing one are not asked for, and the engine stays in the
    cache. *)
Theorem get_schema_stops_at_failing_table (config_manager : ConfigManager)
    (sqlalchemy : Driver) (connection_name : string) (s s1 : state)
    (engine : Engine) (pre : list string) (t : string) (post : list string)
    (columns : string → list Column) (err : exn) :
  DatabaseManager._get_engine config_manager sqlalchemy connection_name s
  = (Return engine, s1) →
  inspect sqlalchemy (calls s1) engine = None →
  get_table_names sqlalchemy (calls s1 ++ [Inspect engine]) engine
  = inr (pre ++ t :: post) →
  (∀ h t', t' ∈ pre → get_columns sqlalchemy h engine t' = inr (columns t')) →
  get_columns sqlalchemy
    (calls s1 ++ Inspect engine :: GetTableNames engine
                 :: (GetColumns engine <$> pre)) engine t = inl err →
  DatabaseManager.get_schema config_manager sqlalchemy connection_name s
  = (Raise err,
     after s1 (Inspect engine :: GetTableNames engine
               :: (GetColumns engine <$> pre ++ [t])))
  ∧ _engines (DatabaseManager.get_schema config_manager sqlalchemy
                connection_name s).2 !! connection_name = Some engine.
Proof.
  intros Hget Hinspect Htables Hcols Herr.
  assert (H : DatabaseManager.get_schema config_manager sqlalchemy
                connection_name s
              = (Raise err,
                 after s1 (Inspect engine :: GetTableNames engine
                           :: (GetColumns engine <$> pre ++ [t])))).
  { unfold DatabaseManager.get_schema.
    rewrite (bind_return _ _ _ _ _ Hget).
    unfold mbind at 1, M_bind at 1. unfold call_ at 1. rewrite Hinspect.
    unfold mbind at 1, M_bind at 1. unfold call at 1. simpl calls.
    rewrite Htables.
    rewrite (describe_tables_fails sqlalchemy engine columns pre t post err Hcols).
    - unfold after. simpl. by rewrite <- !app_assoc.
    - simpl. by rewrite <- !app_assoc. }
  split; [exact H |]. rewrite H. simpl.
  by apply (_get_engine_returns_cached config_manager sqlalchemy _ s).
Qed.

Lemma get_schema_stops_at_failing_table_witness :
  DatabaseManager.get_schema Example.config_manager Example.broken_orders "main"
    DatabaseManager.__init__
  = (Raise (DriverError "no such table: orders"),
     {| _engines := {["main" := 0%nat]};
        calls := [CreateEngine "sqlite:///main.db"; Inspect 0%nat;
                  GetTableNames 0%nat; GetColumns 0%nat "users";
                  GetColumns 0%nat "orders"] |}).
Proof.
  destruct (get_schema_stops_at_failing_table Example.config_manager
              Example.broken_orders "main" DatabaseManager.__init__ _ 0%nat
              ["users"] "orders" ["audit"] Example.columns_of
              (DriverError "no such table: orders")
              eq_refl eq_refl eq_refl) as [H _].
  - intros h t Ht. rewrite !elem_of_cons, elem_of_nil in Ht.
    destruct Ht as [-> | []]. reflexivity.
  - reflexivity.
  - rewrite H. vm_compute. reflexivity.
Defined.

(** ** A failed engine is not remembered *)

(** X9: when [create_engine] raises, [_get_engine] raises [RuntimeError] with
    the driver's message inside and stores nothing; the next access to the
    name asks the driver again, and caches the engine when that call
    succeeds. *)
Theorem failed_engine_is_retried (config_manager : ConfigManager)
    (sqlalchemy : Driver) (connection_name : string) (s : state)
    (conn_config : ConnectionConfig) (err : exn) :
  _engines s !! connection_name = None →
  get_connection config_manager connection_name = Some conn_config →
  create_engine sqlalchemy (calls s) (url conn_config) = inl err →
  let s' := after s [CreateEngine (url conn_config)] in
  DatabaseManager._get_engine config_manager sqlalchemy connection_name s
  = (Raise (RuntimeError ("Failed to create engine for '" +:+ connection_name
                          +:+ "': " +:+ str_exn err)), s')
  ∧ _engines s' = _engines s
  ∧ ∀ engine,
      create_engine sqlalchemy (calls s') (url conn_config) = inr engine →
      DatabaseManager._get_engine config_manager sqlalchemy connection_name s'
      = (Return engine,
         {| _engines := <[connection_name := engine]> (_engines s);
            calls := calls s ++ [CreateEngine (url conn_config);
                                 CreateEngine (url conn_config)] |}).
Proof.
  intros Hnone Hconf Herr s'. split; [| split; [done |]].
  - by apply _get_engine_failed.
  - intros engine Hok.
    rewrite (_get_engine_created _ _ _ s' _ _ Hnone Hconf Hok).
    simpl. by rewrite <- app_assoc.
Qed.

Lemma failed_engine_is_retried_witness :
  DatabaseManager._get_engine Example.config_manager Example.flaky "main"
    DatabaseManager.__init__
  = (Raise (RuntimeError "Failed to create engine for 'main': connection refused"),
     after DatabaseManager.__init__ [CreateEngine "sqlite:///main.db"])
  ∧ DatabaseManager._get_engine Example.config_manager Example.flaky "main"
      (after DatabaseManager.__init__ [CreateEngine "sqlite:///main.db"])
    = (Return 1%nat,
       {| _engines := <["main" := 1%nat]> ∅;
          calls := [CreateEngine "sqlite:///main.db";
                    CreateEngine "sqlite:///main.db"] |}).
Proof.
  destruct (failed_engine_is_retried Example.config_manager Example.flaky "main"
              DatabaseManager.__init__ Example.main
              (DriverError "connection refused") eq_refl eq_refl eq_refl)
    as (H1 & _ & H2).
  split; [exact H1 |]. exact (H2 1%nat eq_refl).
Defined.

(** ** More of the tool surface *)

Section ToolSurfaceMore.

Variable config_manager : ConfigManager.
Variable sqlalchemy : Driver.
Variable json_dumps : value → string.

Abbreviation call_tool := (Server.call_tool config_manager sqlalchemy json_dumps).

Lemma try_except_returned {A : Type} (body : M A)
    (k : A → list Server.TextContent) (s s' : state) (a : A) :
  body s = (Return a, s') →
  try_except (x ← body; mret (k x)) Server.error_text s = (Return (k a), s').
Proof.
  intros H. unfold try_except. by rewrite (bind_return _ _ _ _ _ H).
Qed.

Lemma truthy_nonempty (v : string) : v ≠ EmptyString → truthy (VStr v) = true.
Proof. by destruct v. Qed.

Lemma call_tool_read_sql_strings (arguments : gmap string value)
    (c q : string) :
  arguments !! "connection_name" = Some (VStr c) → c ≠ EmptyString →
  arguments !! "query" = Some (VStr q) → q ≠ EmptyString →
  call_tool "read_sql" arguments
  = try_except
      (results ← DatabaseManager.execute_read config_manager sqlalchemy c q;
       mret (Server.text_content (json_dumps (VList (VDict <$> results)))))
      Server.error_text.
Proof.
  intros Hc Hcne Hq Hqne. rewrite call_tool_read_sql. unfold get.
  rewrite Hc, Hq. simpl default.
  by rewrite (truthy_nonempty _ Hcne), (truthy_nonempty _ Hqne).
Qed.

Lemma call_tool_write_sql_strings (arguments : gmap string value)
    (c q : string) :
  arguments !! "connection_name" = Some (VStr c) → c ≠ EmptyString →
  arguments !! "query" = Some (VStr q) → q ≠ EmptyString →
  call_tool "write_sql" arguments
  = try_except
      (result ← DatabaseManager.execute_write config_manager sqlalchemy c q;
       mret (Server.text_content (json_dumps (VDict result))))
      Server.error_text.
Proof.
  intros Hc Hcne Hq Hqne. rewrite call_tool_write_sql. unfold get.
  rewrite Hc, Hq. simpl default.
  by rewrite (truthy_nonempty _ Hcne), (truthy_nonempty _ Hqne).
Qed.

Lemma tame_error_text (e : exn) : tame config_manager (Server.error_text e).
Proof. intros s. apply grows_refl. Qed.

Lemma tame_get_schema_call (args : list value) :
  tame config_manager
    (DatabaseManager.get_schema_call config_manager sqlalchemy args).
Proof.
  destruct args as [| a [| b l]]; simpl.
  - apply tame_raise.
  - destruct a; first [apply tame_out_of_model | apply tame_get_schema].
  - destruct a; apply tame_raise.
Qed.

Lemma tame_call_tool (name : string) (arguments : gmap string value) :
  tame config_manager (call_tool name arguments).
Proof.
  unfold Server.call_tool.
  destruct (String.eqb name "list_connections"); [apply tame_ret |].
  destruct (String.eqb name "get_schema").
  { destruct (negb _); [apply tame_raise |].
    apply tame_try_except; [| apply tame_error_text].
    apply tame_bind; [apply tame_get_schema_call | intros; apply tame_ret]. }
  destruct (String.eqb name "read_sql").
  { destruct (_ || _); [apply tame_raise |].
    destruct (get arguments "connection_name"); try apply tame_out_of_model.
    destruct (get arguments "query"); try apply tame_out_of_model.
    apply tame_try_except; [| apply tame_error_text].
    apply tame_bind; [apply tame_execute_read | intros; apply tame_ret]. }
  destruct (String.eqb name "write_sql"); [| apply tame_raise].
  destruct (_ || _); [apply tame_raise |].
  destruct (get arguments "connection_name"); try apply tame_out_of_model.
  destruct (get arguments "query"); try apply tame_out_of_model.
  apply tame_try_except; [| apply tame_error_text].
  apply tame_bind; [apply tame_execute_write | intros; apply tame_ret].
Qed.

End ToolSurfaceMore.

(** X10: a tool name outside the four declared ones makes [call_tool] raise
    [ValueError] with the name in the message, whatever the arguments;
    the state is untouched. *)
Theorem unknown_tool_raises (config_manager : ConfigManager)
    (sqlalchemy : Driver) (json_dumps : value → string) (name : string)
    (arguments : gmap string value) (s : state) :
  name ∉ ["list_connections"; "get_schema"; "read_sql"; "write_sql"] →
  Server.call_tool config_manager sqlalchemy json_dumps name arguments s
  = (Raise (ValueError ("Unknown tool: " +:+ name)), s).
Proof.
  rewrite !not_elem_of_cons. intros (H1 & H2 & H3 & H4 & _).
  apply String.eqb_neq in H1, H2, H3, H4.
  unfold Server.call_tool. by rewrite H1, H2, H3, H4.
Qed.

Lemma unknown_tool_raises_witness :
  Server.call_tool Example.config_manager Example.sqlalchemy Example.json_dumps
    "drop_database" {["connection_name" := VStr "main"]} DatabaseManager.__init__
  = (Raise (ValueError "Unknown tool: drop_database"), DatabaseManager.__init__).
Proof.
  apply (unknown_tool_raises Example.config_manager Example.sqlalchemy
           Example.json_dumps "drop_database").
  rewrite !not_elem_of_cons. repeat split; try discriminate.
  apply not_elem_of_nil.
Defined.

(** X11: through the tool, [get_schema] never reaches the database: for every
    arguments, with or without [table_names], the call either raises the
    validation error (no usable connection name) or returns the text of
    the arity error, and in both cases the state is what it was. *)
Theorem get_schema_tool_never_reaches_driver (config_manager : ConfigManager)
    (sqlalchemy : Driver) (json_dumps : value → string)
    (arguments : gmap string value) (s : state) :
  Server.call_tool config_manager sqlalchemy json_dumps "get_schema" arguments s
  = (Raise (ValueError "connection_name is required"), s)
  ∨ Server.call_tool config_manager sqlalchemy json_dumps "get_schema" arguments s
    = (Return (Server.text_content ("Error: " +:+ str_exn arity_error)), s).
Proof.
  destruct (truthy (get arguments "connection_name")) eqn:H.
  - right. by apply get_schema_tool_arity.
  - left. rewrite call_tool_get_schema, H. reflexivity.
Qed.

(** X12: presence of a required argument is tested by truth value: JSON null,
    false, 0, the empty string, the empty list and the empty object all
    count as missing, and the call raises the validation error with the
    state untouched. *)
Theorem falsy_value_as_missing (config_manager : ConfigManager)
    (sqlalchemy : Driver) (json_dumps : value → string) (name k : string)
    (v : value) (arguments : gmap string value) (s : state) :
  database_tool name → k ∈ Server.required name → v ∈ falsy_values →
  Server.call_tool config_manager sqlalchemy json_dumps name
    (<[k := v]> arguments) s
  = (Raise (validation_error name), s).
Proof.
  intros Hname Hk Hv. apply (call_tool_falsy _ _ _ name k); [done.. |].
  unfold get. rewrite lookup_insert_eq. simpl.
  unfold falsy_values in Hv. rewrite !elem_of_cons, elem_of_nil in Hv.
  repeat (destruct Hv as [-> | Hv]; [reflexivity |]). destruct Hv.
Qed.

Lemma falsy_value_as_missing_witness :
  Server.call_tool Example.config_manager Example.sqlalchemy Example.json_dumps
    "read_sql"
    (<["query" := VInt 0]> {["connection_name" := VStr "main"]})
    DatabaseManager.__init__
  = (Raise (ValueError "connection_name and query are required"),
     DatabaseManager.__init__).
Proof.
  apply (falsy_value_as_missing Example.config_manager Example.sqlalchemy
           Example.json_dumps "read_sql" "query" (VInt 0)).
  - right. left. reflexivity.
  - unfold Server.required. simpl. set_solver.
  - unfold falsy_values. set_solver.
Defined.

(** X13: when the manager returns, the tool answers the JSON text of what it
    returned (the rows of a read, the status mapping of a write) and
    leaves the state the manager left: the tool adds no driver call of its
    own. *)
Theorem tool_success_rendered (config_manager : ConfigManager)
    (sqlalchemy : Driver) (json_dumps : value → string)
    (arguments : gmap string value) (connection_name query : string)
    (s : state) :
  arguments !! "connection_name" = Some (VStr connection_name) →
  connection_name ≠ EmptyString →
  arguments !! "query" = Some (VStr query) → query ≠ EmptyString →
  (∀ results s',
     DatabaseManager.execute_read config_manager sqlalchemy
       connection_name query s = (Return results, s') →
     Server.call_tool config_manager sqlalchemy json_dumps "read_sql" arguments s
     = (Return (Server.text_content (json_dumps (VList (VDict <$> results)))), s'))
  ∧ (∀ result s',
       DatabaseManager.execute_write config_manager sqlalchemy
         connection_name query s = (Return result, s') →
       Server.call_tool config_manager sqlalchemy json_dumps "write_sql"
         arguments s
       = (Return (Server.text_content (json_dumps (VDict result))), s')).
Proof.
  intros Hc Hcne Hq Hqne. split.
  - intros results s' H.
    rewrite (call_tool_read_sql_strings _ _ _ _ _ _ Hc Hcne Hq Hqne).
    by apply (try_except_returned _ (λ r, Server.text_content
                                           (json_dumps (VList (VDict <$> r))))).
  - intros result s' H.
    rewrite (call_tool_write_sql_strings _ _ _ _ _ _ Hc Hcne Hq Hqne).
    by apply (try_except_returned _ (λ r, Server.text_content
                                           (json_dumps (VDict r)))).
Qed.

Lemma tool_success_rendered_witness :
  Server.call_tool Example.config_manager Example.sqlalchemy Example.json_dumps
    "write_sql"
    (<["connection_name" := VStr "main"]>
       {["query" := VStr "UPDATE t SET a=1 WHERE id=1"]})
    DatabaseManager.__init__
  = (Return (Server.text_content
       (Example.json_dumps
          (VDict [("status", VStr "success"); ("rows_affected", VInt 1)]))),
     {| _engines := {["main" := 0%nat]};
        calls := [CreateEngine "sqlite:///main.db"; Begin 0%nat;
                  Execute 0%nat "UPDATE t SET a=1 WHERE id=1"; Commit 0%nat] |}).
Proof.
  assert (Hne : ∀ a r, String a r ≠ EmptyString) by (intros a r H; discriminate H).
  assert (H1 : (<["connection_name" := VStr "main"]>
                  {["query" := VStr "UPDATE t SET a=1 WHERE id=1"]}
                : gmap string value) !! "connection_name" = Some (VStr "main"))
    by (vm_compute; reflexivity).
  assert (H2 : (<["connection_name" := VStr "main"]>
                  {["query" := VStr "UPDATE t SET a=1 WHERE id=1"]}
                : gmap string value) !! "query"
               = Some (VStr "UPDATE t SET a=1 WHERE id=1"))
    by (vm_compute; reflexivity).
  apply (proj2 (tool_success_rendered Example.config_manager Example.sqlalchemy
                  Example.json_dumps _ "main" "UPDATE t SET a=1 WHERE id=1"
                  DatabaseManager.__init__ H1 (Hne _ _) H2 (Hne _ _))).
  vm_compute. reflexivity.
Defined.

(** X14: through the tool, a denylisted query to [read_sql] comes back as the
    error text of the keyword check, for every connection name, and the
    state is untouched. *)
Theorem read_sql_tool_refuses_writes (config_manager : ConfigManager)
    (sqlalchemy : Driver) (json_dumps : value → string)
    (arguments : gmap string value) (connection_name query : string)
    (s : state) :
  arguments !! "connection_name" = Some (VStr connection_name) →
  connection_name ≠ EmptyString →
  arguments !! "query" = Some (VStr query) → query ≠ EmptyString →
  starts_with_mutating_keyword (lower (strip query)) →
  Server.call_tool config_manager sqlalchemy json_dumps "read_sql" arguments s
  = (Return (Server.text_content
       "Error: Write operations are not allowed in read_sql. Use write_sql instead."),
     s).
Proof.
  intros Hc Hcne Hq Hqne Hkw.
  rewrite (call_tool_read_sql_strings _ _ _ _ _ _ Hc Hcne Hq Hqne).
  apply (try_except_rendered _ _ _ _ write_not_allowed).
  by apply execute_read_denied.
Qed.

Lemma read_sql_tool_refuses_writes_witness :
  Server.call_tool Example.config_manager Example.sqlalchemy Example.json_dumps
    "read_sql"
    (<["connection_name" := VStr "ghost"]> {["query" := VStr "drop table users"]})
    DatabaseManager.__init__
  = (Return (Server.text_content
       "Error: Write operations are not allowed in read_sql. Use write_sql instead."),
     DatabaseManager.__init__).
Proof.
  assert (Hne : ∀ a r, String a r ≠ EmptyString) by (intros a r H; discriminate H).
  apply (read_sql_tool_refuses_writes Example.config_manager Example.sqlalchemy
           Example.json_dumps _ "ghost" "drop table users");
    [vm_compute; reflexivity | apply Hne | vm_compute; reflexivity | apply Hne |].
  exists "drop", " table users". split; [set_solver | reflexivity].
Defined.

(** X15: through the tool, [write_sql] on a connection configured read-only
    comes back as the error text of the permission check, for every
    non-empty query, and the state is untouched. *)
Theorem write_sql_tool_readonly (config_manager : ConfigManager)
    (sqlalchemy : Driver) (json_dumps : value → string)
    (arguments : gmap string value) (connection_name query : string)
    (conn_config : ConnectionConfig) (s : state) :
  arguments !! "connection_name" = Some (VStr connection_name) →
  connection_name ≠ EmptyString →
  arguments !! "query" = Some (VStr query) → query ≠ EmptyString →
  get_connection config_manager connection_name = Some conn_config →
  readonly conn_config = true →
  Server.call_tool config_manager sqlalchemy json_dumps "write_sql" arguments s
  = (Return (Server.text_content
       ("Error: Connection '" +:+ connection_name
        +:+ "' is configured as READ-ONLY.")), s).
Proof.
  intros Hc Hcne Hq Hqne Hconf Hro.
  rewrite (call_tool_write_sql_strings _ _ _ _ _ _ Hc Hcne Hq Hqne).
  apply (try_except_rendered _ _ _ _
           (PermissionError ("Connection '" +:+ connection_name
                             +:+ "' is configured as READ-ONLY."))).
  unfold DatabaseManager.execute_write. by rewrite Hconf, Hro.
Qed.

Lemma write_sql_tool_readonly_witness :
  Server.call_tool Example.config_manager Example.sqlalchemy Example.json_dumps
    "write_sql"
    (<["connection_name" := VStr "replica"]> {["query" := VStr "SELECT 1"]})
    DatabaseManager.__init__
  = (Return (Server.text_content
       "Error: Connection 'replica' is configured as READ-ONLY."),
     DatabaseManager.__init__).
Proof.
  assert (Hne : ∀ a r, String a r ≠ EmptyString) by (intros a r H; discriminate H).
  apply (write_sql_tool_readonly Example.config_manager Example.sqlalchemy
           Example.json_dumps _ "replica" "SELECT 1" Example.replica);
    [vm_compute; reflexivity | apply Hne | vm_compute; reflexivity | apply Hne
    | reflexivity | reflexivity].
Defined.

(** X16: no tool call removes or replaces a cached engine: an engine that is in
    the cache under a name is still there, under that name, after any
    sequence of tool calls with any arguments. *)
Theorem tool_calls_keep_cached_engines (config_manager : ConfigManager)
    (sqlalchemy : Driver) (json_dumps : value → string)
    (connection_name : string) (engine : Engine) (s : state)
    (tool_calls : list (string * gmap string value)) :
  _engines s !! connection_name = Some engine →
  _engines (tool_run config_manager sqlalchemy json_dumps tool_calls s)
    !! connection_name = Some engine.
Proof.
  revert s. induction tool_calls as [| [name arguments] l IH]; intros s H; simpl.
  - exact H.
  - apply IH. unfold tool_step. simpl.
    by apply (grows_kept _ _ _
                (tame_call_tool config_manager sqlalchemy json_dumps
                   name arguments s)).
Qed.

Lemma tool_calls_keep_cached_engines_witness :
  _engines
    (tool_run Example.config_manager Example.sqlalchemy Example.json_dumps
       [("write_sql", {["connection_name" := VStr "main"]});
        ("get_schema", {["connection_name" := VStr "main"]});
        ("nonsense", ∅)]
       {| _engines := {["main" := 7%nat]}; calls := [] |})
    !! "main" = Some 7%nat.
Proof.
  apply (tool_calls_keep_cached_engines Example.config_manager
           Example.sqlalchemy Example.json_dumps "main" 7%nat).
  vm_compute. reflexivity.
Defined.

(** ** One engine per name, over a whole run *)

Section EngineCount.

Variable config_manager : ConfigManager.
Variable sqlalchemy : Driver.

Abbreviation count := (created_count sqlalchemy).
Abbreviation counted := (λ s : state, count [] (calls s) = size (_engines s)).

Lemma created_count_app (h a b : list event) :
  count h (a ++ b) = (count h a + count (h ++ a) b)%nat.
Proof.
  revert h. induction a as [|ev a IH]; intros h; simpl.
  - by rewrite app_nil_r.
  - rewrite IH, <- app_assoc. simpl. lia.
Qed.

Lemma counted_log (ev : event) (s : state) :
  is_create ev = false → counted s → counted (log_call ev s).
Proof.
  intros Hev H. simpl. rewrite created_count_app, H. simpl.
  destruct ev; try discriminate Hev; lia.
Qed.

Lemma counted_get_engine (c : string) (s : state) :
  counted s →
  counted (DatabaseManager._get_engine config_manager sqlalchemy c s).2.
Proof.
  intros H. destruct (_engines s !! c) as [engine|] eqn:H1.
  { by rewrite (_get_engine_cached _ _ _ _ _ H1). }
  destruct (get_connection config_manager c) as [conf|] eqn:H2.
  2: { by rewrite (_get_engine_unknown _ _ _ _ H1 H2). }
  destruct (create_engine sqlalchemy (calls s) (url conf)) as [e|engine] eqn:H3.
  - rewrite (_get_engine_failed _ _ _ _ _ _ H1 H2 H3). simpl.
    rewrite created_count_app, H. simpl. rewrite H3. lia.
  - rewrite (_get_engine_created _ _ _ _ _ _ H1 H2 H3). simpl.
    rewrite created_count_app, H. simpl. rewrite H3.
    rewrite (map_size_insert_None _ _ _ H1). lia.
Qed.

Lemma counted_step (r : Run.request) (s : state) :
  counted s → counted (Run.step config_manager sqlalchemy r s).
Proof.
  set (R := λ s s' : state, counted s → counted s').
  assert (Hrefl : ∀ s, R s s) by (intros ? ?; done).
  assert (Htrans : ∀ s1 s2 s3, R s1 s2 → R s2 s3 → R s1 s3)
    by (intros ??? H1 H2 ?; by apply H2, H1).
  assert (Hengine : ∀ c, respects R
            (DatabaseManager._get_engine config_manager sqlalchemy c))
    by (intros c s'; unfold R; apply counted_get_engine).
  assert (Hlog : ∀ ev s, is_create ev = false → R s (log_call ev s))
    by (intros ev s' Hev; unfold R; by apply counted_log).
  destruct r as [c | c | c q | c q]; simpl.
  - apply Hengine.
  - apply (respects_get_schema _ _ R Hrefl Htrans c (Hengine c)).
    intros ev s' _ Hev. by apply Hlog.
  - apply (respects_execute_read _ _ R Hrefl Htrans c q (Hengine c)).
    intros ev s' _ Hev. by apply Hlog.
  - apply (respects_execute_write _ _ R Hrefl Htrans c q (Hengine c)).
    intros ev s' _ Hev. by apply Hlog.
Qed.

End EngineCount.

(** X17: over any run of a manager, the number of engines the driver has given
    out is the number of names in the cache, which is at most the number
    of configured connections: no engine is created a second time for a
    name that has one, and none is dropped. *)
Theorem one_engine_per_name (config_manager : ConfigManager)
    (sqlalchemy : Driver) (s : state) :
  Run.reachable config_manager sqlalchemy s →
  created_count sqlalchemy [] (calls s) = size (_engines s)
  ∧ (size (_engines s) ≤ size (connections config_manager))%nat.
Proof.
  intros Hs. split.
  - induction Hs as [| r s Hs IH]; [reflexivity | by apply counted_step].
  - rewrite <- !size_dom. apply subseteq_size.
    intros c Hc. apply elem_of_dom in Hc. apply elem_of_dom.
    by apply (reachable_cached_configured _ _ _ Hs).
Qed.

Lemma one_engine_per_name_witness :
  created_count Example.flaky []
    (calls (Run.run Example.config_manager Example.flaky
              [Run.ExecuteRead "main" "SELECT 1";
               Run.ExecuteRead "main" "SELECT 1";
               Run.ExecuteWrite "main" "DELETE FROM t";
               Run.GetSchema "main"]
              DatabaseManager.__init__))
  = 1%nat.
Proof.
  rewrite (proj1 (one_engine_per_name Example.config_manager Example.flaky _
                    (reachable_run _ _ _ _ (Run.reachable_init _ _)))).
  vm_compute. reflexivity.
Defined.

(** X18: through the tool, a name that is not configured comes back as the
    not-found text: from [write_sql] for every non-empty query, from
    [read_sql] for every non-empty query that passes the keyword check.
    The state is untouched. *)
Theorem unknown_connection_tool_text (config_manager : ConfigManager)
    (sqlalchemy : Driver) (json_dumps : value → string)
    (arguments : gmap string value) (connection_name query : string)
    (s : state) :
  Run.reachable config_manager sqlalchemy s →
  arguments !! "connection_name" = Some (VStr connection_name) →
  connection_name ≠ EmptyString →
  arguments !! "query" = Some (VStr query) → query ≠ EmptyString →
  get_connection config_manager connection_name = None →
  Server.call_tool config_manager sqlalchemy json_dumps "write_sql" arguments s
  = (Return (Server.text_content
       ("Error: Connection '" +:+ connection_name +:+ "' not found.")), s)
  ∧ (¬ starts_with_mutating_keyword (lower (strip query)) →
     Server.call_tool config_manager sqlalchemy json_dumps "read_sql" arguments s
     = (Return (Server.text_content
          ("Error: Connection '" +:+ connection_name
           +:+ "' not found in configuration.")), s)).
Proof.
  intros Hs Hc Hcne Hq Hqne Hconf. split.
  - rewrite (call_tool_write_sql_strings _ _ _ _ _ _ Hc Hcne Hq Hqne).
    apply (try_except_rendered _ _ _ _
             (ValueError ("Connection '" +:+ connection_name +:+ "' not found."))).
    unfold DatabaseManager.execute_write. by rewrite Hconf.
  - intros Hpass.
    rewrite (call_tool_read_sql_strings _ _ _ _ _ _ Hc Hcne Hq Hqne).
    apply (try_except_rendered _ _ _ _
             (ValueError ("Connection '" +:+ connection_name
                          +:+ "' not found in configuration."))).
    rewrite (execute_read_allowed _ _ _ _ Hpass).
    pose proof (reachable_unknown_not_cached _ _ _ _ Hs Hconf) as Hcache.
    exact (bind_raise _ _ _ _ _
             (_get_engine_unknown _ sqlalchemy _ _ Hcache Hconf)).
Qed.

Lemma unknown_connection_tool_text_witness :
  Server.call_tool Example.config_manager Example.sqlalchemy Example.json_dumps
    "write_sql"
    (<["connection_name" := VStr "ghost"]> {["query" := VStr "DELETE FROM t"]})
    DatabaseManager.__init__
  = (Return (Server.text_content "Error: Connection 'ghost' not found."),
     DatabaseManager.__init__).
Proof.
  assert (Hne : ∀ a r, String a r ≠ EmptyString) by (intros a r H; discriminate H).
  assert (H1 : (<["connection_name" := VStr "ghost"]>
                  {["query" := VStr "DELETE FROM t"]} : gmap string value)
               !! "connection_name" = Some (VStr "ghost"))
    by (vm_compute; reflexivity).
  assert (H2 : (<["connection_name" := VStr "ghost"]>
                  {["query" := VStr "DELETE FROM t"]} : gmap string value)
               !! "query" = Some (VStr "DELETE FROM t"))
    by (vm_compute; reflexivity).
  exact (proj1 (unknown_connection_tool_text Example.config_manager
                  Example.sqlalchemy Example.json_dumps _
                  "ghost" "DELETE FROM t" DatabaseManager.__init__
                  (Run.reachable_init _ _) H1 (Hne _ _) H2 (Hne _ _) eq_refl)).
Defined.

Lemma get_schema_only_inspects_witness :
  ∃ evs,
    calls (DatabaseManager.get_schema Example.config_manager Example.sqlalchemy
             "main" DatabaseManager.__init__).2
    = calls DatabaseManager.__init__ ++ evs
    ∧ (∀ ev, ev ∈ evs → schema_event ev = true)
    ∧ ∀ e q, (Execute e q ∉ evs) ∧ (Connect e ∉ evs) ∧ (Begin e ∉ evs)
             ∧ (Commit e ∉ evs).
Proof.
  exact (get_schema_only_inspects Example.config_manager Example.sqlalchemy
           "main" DatabaseManager.__init__).
Defined.

Lemma execute_read_never_commits_witness :
  ∃ evs,
    calls (DatabaseManager.execute_read Example.config_manager
             Example.sqlalchemy "main" "SELECT 1; DELETE FROM users"
             DatabaseManager.__init__).2
    = calls DatabaseManager.__init__ ++ evs
    ∧ (∀ ev, ev ∈ evs → read_event ev = true)
    ∧ ∀ e, (Begin e ∉ evs) ∧ (Commit e ∉ evs) ∧ (Rollback e ∉ evs).
Proof.
  exact (execute_read_never_commits Example.config_manager Example.sqlalchemy
           "main" "SELECT 1; DELETE FROM users" DatabaseManager.__init__).
Defined.

Lemma get_schema_tool_never_reaches_driver_witness :
  Server.call_tool Example.config_manager Example.sqlalchemy Example.json_dumps
    "get_schema"
    (<["table_names" := VList [VStr "users"]]> {["connection_name" := VStr "main"]})
    DatabaseManager.__init__
  = (Return (Server.text_content
       "Error: DatabaseManager.get_schema() takes 2 positional arguments but 3 were given"),
     DatabaseManager.__init__).
Proof.
  destruct (get_schema_tool_never_reaches_driver Example.config_manager
              Example.sqlalchemy Example.json_dumps
              (<["table_names" := VList [VStr "users"]]>
                 {["connection_name" := VStr "main"]})
              DatabaseManager.__init__) as [H | H].
  - vm_compute in H. discriminate H.
  - exact H.
Defined.
